(** * How fast are NumPy ops: a model of the benchmarking notebook

    The notebook draws a list [l1] of floating-point numbers, takes the
    base-10 logarithm of its elements in four ways (a [for] loop that appends
    to [l2], a list comprehension, [map] and NumPy's vectorised [log10]) and
    records the wall-clock time of each way in the list [speed].

    The cells are embedded as state transformers over the notebook's global
    variables and its list objects.  Floating-point values are the kernel's
    binary64 numbers; the logarithm routines of the C library and of NumPy,
    the wall clock and the random generator are parameters of the model.
    What the cells print and the bar chart of the last cell change no
    variable: the first few elements that a cell prints and the bars of the
    chart are read off the state, the other messages are left out.  The
    [for] loop iterates over a list object that the program could extend
    while it runs, so it is given a step budget; the theorems say how many
    steps are enough. *)

From Stdlib Require Import ZArith List Bool Lia Floats.
Import ListNotations.
Open Scope Z_scope.

(** ** Values, names and list objects *)

(** A list object is named by its address: two variables bound to the same
    address alias the same list. *)
Definition loc := nat.
Bind Scope nat_scope with loc.

(** The global variables that the cells assign. *)
Inductive var := N | speed | l1 | a1 | l2 | t1 | t2 | a2 | l3.

Definition var_eqb (x y : var) : bool :=
  match x, y with
  | N, N | speed, speed | l1, l1 | a1, a1 | l2, l2
  | t1, t1 | t2, t2 | a2, a2 | l3, l3 => true
  | _, _ => false
  end.

(** What a variable can hold.  A [list] is a reference to a mutable object;
    an [ndarray] is carried by value: the notebook neither aliases nor
    writes to its arrays. *)
Inductive value :=
| VInt (n : Z)
| VFloat (x : float)
| VList (p : loc)
| VArray (a : list float).

Inductive exn :=
| NameError (x : var)   (* name is not defined *)
| TypeError             (* operand of the wrong kind *)
| ValueError.           (* math domain error, negative dimensions *)

Record state := mkState {
  env : var -> option value;   (* the global name space *)
  heap : loc -> list float;    (* contents of the list objects *)
  next : loc;                  (* first address not yet handed out *)
  ticks : nat;                 (* calls of time.time() so far *)
  draws : nat                  (* random numbers drawn so far *)
}.

(** ** Pure results and the notebook monad *)

Inductive result (A : Type) :=
| Ok (a : A)
| Err (e : exn).
Arguments Ok {A} a.
Arguments Err {A} e.

(** Running a piece of a cell either finishes with a value, raises with the
    state reached so far, or exhausts the step budget it was given. *)
Inductive res (A : Type) :=
| Ret (a : A) (s : state)
| Exc (e : exn) (s : state)
| OutOfFuel.
Arguments Ret {A} a s.
Arguments Exc {A} e s.
Arguments OutOfFuel {A}.

Definition M (A : Type) := state -> res A.

Definition ret {A} (a : A) : M A := fun s => Ret a s.

Definition raise {A} (e : exn) : M A := fun s => Exc e s.

Definition bind {A B} (c : M A) (k : A -> M B) : M B :=
  fun s =>
    match c s with
    | Ret a s' => k a s'
    | Exc e s' => Exc e s'
    | OutOfFuel => OutOfFuel
    end.

Notation "x <- c ;; k" := (bind c (fun x => k))
  (at level 61, c at next level, right associativity).
Notation "c ;; k" := (bind c (fun _ => k))
  (at level 61, right associativity).

Definition lift {A} (r : result A) : M A :=
  match r with
  | Ok a => ret a
  | Err e => raise e
  end.

Fixpoint mapM {A B} (f : A -> result B) (xs : list A) : result (list B) :=
  match xs with
  | [] => Ok []
  | x :: xs' =>
      match f x with
      | Err e => Err e
      | Ok y =>
          match mapM f xs' with
          | Err e => Err e
          | Ok ys => Ok (y :: ys)
          end
      end
  end.

(** ** Name space and list objects *)

Definition store (p : loc) (xs : list float) (h : loc -> list float)
  : loc -> list float :=
  fun q => if Nat.eqb q p then xs else h q.
Arguments store : simpl never.

Definition set_var (x : var) (v : value) (s : state) : state :=
  mkState (fun y => if var_eqb x y then Some v else env s y)
          (heap s) (next s) (ticks s) (draws s).

Definition set_heap (p : loc) (xs : list float) (s : state) : state :=
  mkState (env s) (store p xs (heap s)) (next s) (ticks s) (draws s).

Definition assign (x : var) (v : value) : M unit :=
  fun s => Ret tt (set_var x v s).

Definition lookup (x : var) : M value :=
  fun s =>
    match env s x with
    | Some v => Ret v s
    | None => Exc (NameError x) s
    end.

Definition lookup_list (x : var) : M loc :=
  v <- lookup x ;;
  match v with
  | VList p => ret p
  | _ => raise TypeError
  end.

Definition lookup_array (x : var) : M (list float) :=
  v <- lookup x ;;
  match v with
  | VArray a => ret a
  | _ => raise TypeError
  end.

Definition lookup_int (x : var) : M Z :=
  v <- lookup x ;;
  match v with
  | VInt n => ret n
  | _ => raise TypeError
  end.

Definition lookup_float (x : var) : M float :=
  v <- lookup x ;;
  match v with
  | VFloat f => ret f
  | _ => raise TypeError
  end.

(** A list display, [list(...)] or a comprehension builds a new object. *)
Definition new_list (xs : list float) : M loc :=
  fun s =>
    Ret (next s)
        (mkState (env s) (store (next s) xs (heap s)) (S (next s))
                 (ticks s) (draws s)).

(** [p.append(x)] writes to the object itself. *)
Definition append (p : loc) (x : float) : M unit :=
  fun s => Ret tt (set_heap p (heap s p ++ [x]) s).

Definition contents (p : loc) : M (list float) :=
  fun s => Ret (heap s p) s.

(** [for item in p: body]: the list iterator keeps an index into the live
    object and stops when the index runs past its current end. *)
Fixpoint for_in (fuel : nat) (p : loc) (i : nat) (body : float -> M unit)
  : M unit :=
  fun s =>
    match fuel with
    | O => OutOfFuel
    | S fuel' =>
        match nth_error (heap s p) i with
        | None => Ret tt s
        | Some item =>
            match body item s with
            | Ret _ s' => for_in fuel' p (S i) body s'
            | Exc e s' => Exc e s'
            | OutOfFuel => OutOfFuel
            end
        end
    end.

(** [range(a, b)] *)
Definition range (a b : Z) : list Z :=
  map (fun k => a + Z.of_nat k) (seq 0 (Z.to_nat (b - a))).

(** Conversion of an int to the nearest double. *)
Definition float_of_int (i : Z) : float :=
  SF2Prim (binary_normalize prec emax i 0 false).

(** The least int whose conversion to a double overflows. *)
Definition dbl_overflow : Z := 2 ^ 1024 - 2 ^ 970.

(** ** Reading a state *)

(** The list that a variable names, if it names one. *)
Definition list_of (x : var) (s : state) : option (list float) :=
  match env s x with
  | Some (VList p) => Some (heap s p)
  | _ => None
  end.

(** The array that a variable holds, if it holds one. *)
Definition array_of (x : var) (s : state) : option (list float) :=
  match env s x with
  | Some (VArray a) => Some a
  | _ => None
  end.

(** [l1] still names the object at [p], and that object still holds
    [xs]. *)
Definition sample_intact (p : loc) (xs : list float) (s : state) : Prop :=
  env s l1 = Some (VList p) /\ heap s p = xs.

(** The state reached by an outcome satisfies [Q], whether the cell
    finished or raised. *)
Definition ensures {A} (r : res A) (Q : state -> Prop) : Prop :=
  match r with
  | Ret _ s' => Q s'
  | Exc _ s' => Q s'
  | OutOfFuel => True
  end.

(** The set-up cells have run: [l1] names the Sample Set [xs] at [p], [a1]
    is its array, [l2] and [speed] name lists of their own at [q] and [sp],
    and all three objects were handed out by the allocator. *)
Record prepared (s : state) (p q sp : loc) (xs : list float) : Prop := {
  pre_l1 : env s l1 = Some (VList p);
  pre_l2 : env s l2 = Some (VList q);
  pre_speed : env s speed = Some (VList sp);
  pre_a1 : env s a1 = Some (VArray xs);
  pre_sample : heap s p = xs;
  pre_pq : p <> q;
  pre_psp : p <> sp;
  pre_qsp : q <> sp;
  pre_p_live : (p < next s)%nat;
  pre_q_live : (q < next s)%nat;
  pre_sp_live : (sp < next s)%nat
}.

(** A state in which the set-up cells have left the Sample Set [xs], the
    output list [ys] and the durations [ds]. *)
Definition kernel_with (xs ys ds : list float) : state :=
  mkState
    (fun x =>
       match x with
       | N => Some (VInt (Z.of_nat (length xs)))
       | speed => Some (VList 0%nat)
       | l1 => Some (VList 1%nat)
       | a1 => Some (VArray xs)
       | l2 => Some (VList 2%nat)
       | _ => None
       end)
    (fun p =>
       match p with
       | 0%nat => ds
       | 1%nat => xs
       | 2%nat => ys
       | _ => []
       end)
    3%nat 0%nat 0%nat.

(** A strictly positive number: greater than zero, hence not NaN. *)
Definition strictly_positive (x : float) : Prop := (0 <? x)%float = true.

(** A number that is zero or negative. *)
Definition non_positive (x : float) : Prop := (x <=? 0)%float = true.

(** The elements computed before the first failure, and that failure. *)
Fixpoint run_until {A B} (f : A -> result B) (xs : list A)
  : list B * option exn :=
  match xs with
  | [] => ([], None)
  | x :: xs' =>
      match f x with
      | Err e => ([], Some e)
      | Ok y => let (ys, r) := run_until f xs' in (y :: ys, r)
      end
  end.

(** ** Rounding of binary64 numbers *)

(** The record that [shr] keeps while it shifts a mantissa to the right
    stands for the integer [X] shifted by [K] places: the quotient, whether
    the remainder reaches one half, and whether it is neither zero nor one
    half. *)
Definition shr_rep (mrs : shr_record) (X K : Z) : Prop :=
  shr_m mrs = X / 2 ^ K /\
  shr_r mrs = (2 ^ K <=? 2 * (X mod 2 ^ K)) /\
  shr_s mrs = negb (X mod 2 ^ K =? 0) && negb (2 * (X mod 2 ^ K) =? 2 ^ K).

(** Rounding the quotient [q] to nearest, ties to even, when the remainder
    is [rem] out of [P]. *)
Definition rne (q rem P : Z) : Z :=
  if 2 * rem <? P then q
  else if P <? 2 * rem then q + 1
  else if Z.even q then q else q + 1.

(** What [binary_round_aux] makes of the rounded mantissa [m1] at the
    exponent [e1]. *)
Definition packed (m1 e1 : Z) : spec_float :=
  if m1 =? 0 then S754_zero false
  else if m1 <? 2 ^ 53 then
    if e1 <=? 971 then S754_finite false (Z.to_pos m1) e1
    else S754_infinity false
  else
    if e1 + 1 <=? 971 then S754_finite false (Z.to_pos (2 ^ 52)) (e1 + 1)
    else S754_infinity false.

(** The numbers 1, 100 and 101. *)
Definition SF_one : spec_float := S754_finite false 4503599627370496 (-52).
Definition SF_100 : spec_float := S754_finite false 7036874417766400 (-46).
Definition SF_101 : spec_float := S754_finite false 7107243161944064 (-46).

(** What [np.random.random] documents of the numbers it draws. *)
Definition unit_interval (u : float) : Prop :=
  (0 <=? u)%float = true /\ (u <? 1)%float = true.

(** A number in the range [1, 101). *)
Definition in_range (x : float) : Prop :=
  (1 <=? x)%float = true /\ (x <? 101)%float = true.

(** ** The bar chart of the last cell *)

(** The labels under the bars. *)
Inductive tick := For_loop | List_comprehension | Map_function | NumPy.

Record bar := mkBar {
  bar_left : Z;          (* position on the x axis *)
  bar_height : float;
  bar_tick_label : tick
}.

(** [plt.bar(left=..., height=..., tick_label=...)] when there is one
    height and one label for every position: the bars, from left to right.
    [None] stands for a call whose arguments differ in length, which this
    model does not describe. *)
Fixpoint plt_bar (lefts : list Z) (heights : list float) (labels : list tick)
  : option (list bar) :=
  match lefts, heights, labels with
  | [], [], [] => Some []
  | x :: lefts', h :: heights', t :: labels' =>
      match plt_bar lefts' heights' labels' with
      | Some bars => Some (mkBar x h t :: bars)
      | None => None
      end
  | _, _, _ => None
  end.

(** ** A world for the worked examples *)

(** A logarithm routine tabulated at the numbers the examples use. *)
Definition ex_log10 (x : float) : float :=
  if (x =? 1)%float then 0%float
  else if (x =? 4)%float then 0x1.34413509f79ffp-1%float
  else if (x =? 100)%float then 2%float
  else x.

Definition ex_long_log10 (i : Z) : float := 308%float.

(** A clock that advances by one second per reading. *)
Definition ex_clock (k : nat) : float := float_of_int (Z.of_nat k).

(** A generator that keeps drawing one half. *)
Definition ex_uniform (k : nat) : float := 0.5%float.

Section Notebook.

(** ** The outside world *)

(** The C library's [log10] on positive finite doubles. *)
Variable libm_log10 : float -> float.
(** CPython's logarithm of an int too large for a double. *)
Variable long_log10 : Z -> float.
(** NumPy's inner loop for [log10] on positive finite doubles. *)
Variable npy_log10 : float -> float.
(** [wall_clock k] is what the [k]-th call of [time.time()] returns. *)
Variable wall_clock : nat -> float.
(** [uniform k] is the [k]-th double drawn by [np.random.random]. *)
Variable uniform : nat -> float.

(** ** [from math import log10 as lg10] *)

(** The float case of [math.log10]: the C library on positive finite
    numbers, NaN and +inf returned as they are, a domain error on zero, on
    negative numbers and on -inf. *)
Definition m_log10 (x : float) : result float :=
  if is_finite x then
    if (0 <? x)%float then Ok (libm_log10 x) else Err ValueError
  else if is_nan x then Ok x
  else if (0 <? x)%float then Ok x
  else Err ValueError.

Definition lg10 (v : value) : result float :=
  match v with
  | VInt i =>
      if i <=? 0 then Err ValueError
      else if i <? dbl_overflow then Ok (libm_log10 (float_of_int i))
      else Ok (long_log10 i)
  | VFloat x => m_log10 x
  | _ => Err TypeError
  end.

(** [def op1(x): return (lg10(x))] *)
Definition op1 (x : value) : result float := lg10 x.

(** ** NumPy *)

(** [np.log10] on one element: zero gives -inf and a negative number gives
    NaN, each with a warning on the console and no exception. *)
Definition np_log10_1 (x : float) : float :=
  if is_nan x then x
  else if (0 <? x)%float then
    if is_infinity x then x else npy_log10 x
  else if (x =? 0)%float then neg_infinity
  else nan.

Definition np_log10 (a : list float) : list float := map np_log10_1 a.

(** [np.random.random(n)]: [n] doubles from the generator; a negative
    size is refused. *)
Definition np_random_random (n : Z) : M (list float) :=
  fun s =>
    if n <? 0 then Exc ValueError s
    else Ret (map uniform (seq (draws s) (Z.to_nat n)))
             (mkState (env s) (heap s) (next s) (ticks s)
                      (draws s + Z.to_nat n)%nat).

(** ** [time.time()] *)

Definition time_time : M float :=
  fun s =>
    Ret (wall_clock (ticks s))
        (mkState (env s) (heap s) (next s) (S (ticks s)) (draws s)).

(** [t1=time.time()] *)
Definition start_clock : M unit :=
  a <- time_time ;;
  assign t1 (VFloat a).

(** ** The cells, in the order of the notebook *)

(** [N = 1000000; speed = []] *)
Definition cell_globals : M unit :=
  assign N (VInt 1000000) ;;
  p <- new_list [] ;;
  assign speed (VList p).

(** [l1 = list(100*(np.random.random(N))+1)] *)
Definition cell_l1 : M unit :=
  n <- lookup_int N ;;
  r <- np_random_random n ;;
  p <- new_list (map (fun u => (100 * u + 1)%float) r) ;;
  assign l1 (VList p).

(** [a1 = np.array(l1)] *)
Definition cell_a1 : M unit :=
  p <- lookup_list l1 ;;
  xs <- contents p ;;
  assign a1 (VArray xs).

(** [l2=[]] *)
Definition cell_l2 : M unit :=
  p <- new_list [] ;;
  assign l2 (VList p).

(** [speed.append(t2-t1)] *)
Definition record_duration : M unit :=
  b <- lookup_float t2 ;;
  a <- lookup_float t1 ;;
  p <- lookup_list speed ;;
  append p (b - a)%float.

(** [t2 = time.time(); speed.append(t2-t1)] *)
Definition stop_clock : M unit :=
  b <- time_time ;;
  assign t2 (VFloat b) ;;
  record_duration.

(** Every strategy cell has the same frame around its computation:
[[
t1=time.time()
...
t2 = time.time()
speed.append(t2-t1)
]] *)
Definition timed (body : M unit) : M unit :=
  start_clock ;;
  body ;;
  stop_clock.

(** [l2.append(lg10(item))]: the name [l2] is looked up before [lg10] is
    called. *)
Definition append_log (item : float) : M unit :=
  q <- lookup_list l2 ;;
  y <- lift (lg10 (VFloat item)) ;;
  append q y.

(** [[
for item in l1:
    l2.append(lg10(item))
]] *)
Definition loop_append (fuel : nat) : M unit :=
  p <- lookup_list l1 ;;
  for_in fuel p 0 append_log.

Definition strategy_for (fuel : nat) : M unit := timed (loop_append fuel).

(** [l2 = [lg10(i) for i in range(1,1000001)]] *)
Definition comprehension : M unit :=
  ys <- lift (mapM (fun i => lg10 (VInt i)) (range 1 1000001)) ;;
  q <- new_list ys ;;
  assign l2 (VList q).

Definition strategy_comprehension : M unit := timed comprehension.

(** [l2=list(map(op1,l1))]: [op1] reads and writes no variable, so the
    elements that [list] pulls out of the [map] object are those that [l1]
    holds when the cell starts. *)
Definition map_op1 : M unit :=
  p <- lookup_list l1 ;;
  xs <- contents p ;;
  ys <- lift (mapM (fun x => op1 (VFloat x)) xs) ;;
  q <- new_list ys ;;
  assign l2 (VList q).

Definition strategy_map : M unit := timed map_op1.

(** [a2=np.log10(a1)] *)
Definition vectorized : M unit :=
  xs <- lookup_array a1 ;;
  assign a2 (VArray (np_log10 xs)).

Definition strategy_numpy : M unit := timed vectorized.

(** [l3 = list(a2)] *)
Definition cell_l3 : M unit :=
  ys <- lookup_array a2 ;;
  p <- new_list ys ;;
  assign l3 (VList p).

(** A fresh kernel: no name is bound and no object exists. *)
Definition fresh_kernel : state :=
  mkState (fun _ => None) (fun _ => []) 0%nat 0%nat 0%nat.

(** The cells that run before the first strategy. *)
Definition set_up : M unit :=
  cell_globals ;;
  cell_l1 ;;
  cell_a1 ;;
  cell_l2.

(** Running every cell from top to bottom. *)
Definition notebook (fuel : nat) : M unit :=
  set_up ;;
  strategy_for fuel ;;
  strategy_comprehension ;;
  strategy_map ;;
  strategy_numpy ;;
  cell_l3.

(** ** What the cells show *)

(** [x[:4]], the first few elements that the cells print: the slice of a
    list with fewer than four elements is the whole list. *)
Definition first_few (x : var) : M (list float) :=
  p <- lookup_list x ;;
  xs <- contents p ;;
  ret (firstn 4 xs).

(** [[
plt.bar(left=[1,2,3,4],height=speed, align='center',
        tick_label=['For-loop','List comprehension','Map function','NumPy'])
]]
    The bars that the last cell draws in the state [s], when [speed]
    names a list with one height for every position. *)
Definition cell_plot (s : state) : option (list bar) :=
  match list_of speed s with
  | Some heights =>
      plt_bar [1; 2; 3; 4] heights
              [For_loop; List_comprehension; Map_function; NumPy]
  | None => None
  end.

(** ** States that the proofs name *)

(** The state once [ys] have been appended, one by one, to the list at
    [q]. *)
Definition appended (q : loc) (ys : list float) (s : state) : state :=
  fold_left (fun s y => set_heap q (heap s q ++ [y]) s) ys s.

(** The state in which the computation of a timed cell starts. *)
Definition started (s : state) : state :=
  set_var t1 (VFloat (wall_clock (ticks s)))
    (mkState (env s) (heap s) (next s) (S (ticks s)) (draws s)).

(** The duration that a timed cell started in [s] records: the difference
    of the two readings of the clock. *)
Definition duration (s : state) : float :=
  (wall_clock (S (ticks s)) - wall_clock (ticks s))%float.

(** What a strategy cell run from [s] to [s'] does besides computing its
    Result Set: the set-up is kept, with the output list now at [q'], one
    duration is added to [speed], the clock was read twice. *)
Record timed_step (s s' : state) (p q' sp : loc) (xs : list float)
  : Prop := {
  ts_prepared : prepared s' p q' sp xs;
  ts_speed : heap s' sp = heap s sp ++ [duration s];
  ts_ticks : ticks s' = S (S (ticks s));
  ts_draws : draws s' = draws s;
  ts_next : (next s <= next s')%nat
}.

(** The state that [stop_clock] leaves when [t1] holds [a] and [speed]
    names the list at [sp]. *)
Definition stopped (a : float) (sp : loc) (s : state) : state :=
  set_heap sp (heap s sp ++ [(wall_clock (ticks s) - a)%float])
    (set_var t2 (VFloat (wall_clock (ticks s)))
       (mkState (env s) (heap s) (next s) (S (ticks s)) (draws s))).

(** What the computation inside a timed cell, run from [started s] to
    [s2], must leave alone for the cell to record its duration. *)
Record body_step (s s2 : state) (p q' sp : loc) (xs : list float)
  : Prop := {
  bs_prepared : prepared s2 p q' sp xs;
  bs_t1 : env s2 t1 = Some (VFloat (wall_clock (ticks s)));
  bs_speed : heap s2 sp = heap s sp;
  bs_ticks : ticks s2 = S (ticks s);
  bs_draws : draws s2 = draws s;
  bs_next : (next s <= next s2)%nat
}.

(** The Sample Set that [cell_l1] makes of [n] draws when [d] numbers
    have been drawn before. *)
Definition drawn (d : nat) (n : Z) : list float :=
  map (fun u => (100 * u + 1)%float) (map uniform (seq d (Z.to_nat n))).
Arguments drawn : simpl never.

(** The duration of the [j]-th timed cell of a run from a fresh kernel:
    the cell makes the calls [2j] and [2j+1] of [time.time()]. *)
Definition elapsed (j : nat) : float :=
  (wall_clock (S (2 * j)) - wall_clock (2 * j))%float.

(** The two readings of the [j]-th timed cell are numbers, the second not
    earlier than the first. *)
Definition clock_in_order (j : nat) : Prop :=
  is_finite (wall_clock (2 * j)) = true /\
  is_finite (wall_clock (S (2 * j))) = true /\
  (wall_clock (2 * j) <=? wall_clock (S (2 * j)))%float = true.

(** What [math.log10] and [np.log10] return on a strictly positive
    number. *)
Definition log10_math (x : float) : float :=
  if is_finite x then libm_log10 x else x.

Definition log10_numpy (x : float) : float :=
  if is_infinity x then x else npy_log10 x.

(** The Result Set of the comprehension. *)
Definition log10_table : list float :=
  map (fun i => libm_log10 (float_of_int i)) (range 1 1000001).

(** The duration of the [j]-th timed cell of a run of the whole notebook
    that starts when the clock has been read [t] times. *)
Definition elapsed_after (t j : nat) : float :=
  (wall_clock (S (t + 2 * j)) - wall_clock (t + 2 * j))%float.

(** ** Runs of several cells *)



(** ** Comparisons of binary64 numbers *)

Lemma Prim2SF_zero : Prim2SF 0 = S754_zero false.
Proof. reflexivity. Qed.

Lemma SFcompare_refl (X : spec_float) :
  X <> S754_nan -> SFcompare X X = Some Eq.
Proof.
  destruct X as [s|s| |s m e]; intros HX; try congruence.
  - reflexivity.
  - destruct s; reflexivity.
  - cbn. rewrite Z.compare_refl, Pos.compare_cont_refl. destruct s; reflexivity.
Qed.

Lemma is_nan_false_iff (x : float) :
  is_nan x = false <-> Prim2SF x <> S754_nan.
Proof.
  unfold is_nan. rewrite eqb_spec. unfold SFeqb. split.
  - intros H E. rewrite E in H. discriminate.
  - intros H. rewrite SFcompare_refl by assumption. reflexivity.
Qed.

Lemma positive_not_nan (x : float) : strictly_positive x -> is_nan x = false.
Proof.
  unfold strictly_positive. rewrite ltb_spec, Prim2SF_zero. intros H.
  apply is_nan_false_iff. intros E. rewrite E in H. discriminate.
Qed.

Lemma non_positive_not_nan (x : float) : non_positive x -> is_nan x = false.
Proof.
  unfold non_positive. rewrite leb_spec, Prim2SF_zero. intros H.
  apply is_nan_false_iff. intros E. rewrite E in H. discriminate.
Qed.

Lemma non_positive_not_positive (x : float) :
  non_positive x -> (0 <? x)%float = false.
Proof.
  unfold non_positive. rewrite leb_spec, ltb_spec, Prim2SF_zero.
  destruct (Prim2SF x) as [s|s| |s m e]; try destruct s; cbn; congruence.
Qed.

(** ** Rounding: how [binary_round_aux] shifts and rounds *)

Lemma shr_1_nonneg (m : Z) (r s : bool) :
  0 <= m ->
  shr_1 (Build_shr_record m r s) = Build_shr_record (m / 2) (Z.odd m) (r || s).
Proof.
  intros Hm. rewrite <- Z.div2_div.
  destruct m as [|[p|p|]|p]; try reflexivity. lia.
Qed.

Lemma shr_rep_start (X : Z) :
  shr_rep (Build_shr_record X false false) X 0.
Proof.
  unfold shr_rep. cbn [shr_m shr_r shr_s]. rewrite Z.pow_0_r, Z.div_1_r, Z.mod_1_r.
  repeat split.
Qed.

Lemma shr_rep_step (mrs : shr_record) (X K : Z) :
  0 <= X -> 0 <= K ->
  shr_rep mrs X K -> shr_rep (shr_1 mrs) X (K + 1).
Proof.
  intros HX HK (Hm & Hr & Hs). destruct mrs as [m r s].
  cbn [shr_m shr_r shr_s] in Hm, Hr, Hs.
  assert (HP : 0 < 2 ^ K) by (apply Z.pow_pos_nonneg; lia).
  assert (Hm0 : 0 <= m) by (subst m; apply Z.div_pos; lia).
  rewrite shr_1_nonneg by assumption.
  unfold shr_rep. cbn [shr_m shr_r shr_s].
  rewrite Z.pow_add_r, Z.pow_1_r by lia.
  rewrite Z.rem_mul_r, <- Z.div_div by lia.
  rewrite <- Hm, Zmod_odd.
  pose proof (Z.mod_pos_bound X (2 ^ K) HP) as Hrho.
  set (rho := X mod 2 ^ K) in *. set (P := 2 ^ K) in *.
  split; [reflexivity|].
  subst r s.
  destruct (Z.odd m); 
    repeat match goal with
    | |- context [?a <=? ?b] => destruct (Z.leb_spec a b)
    | |- context [?a =? ?b] => destruct (Z.eqb_spec a b)
    end; cbn; split; try reflexivity; try lia.
Qed.

Lemma shr_rep_iter (n : positive) :
  forall (mrs : shr_record) (X K : Z),
    0 <= X -> 0 <= K ->
    shr_rep mrs X K -> shr_rep (iter_pos shr_1 n mrs) X (K + Zpos n).
Proof.
  induction n as [n IH|n IH|]; intros mrs X K HX HK H; cbn [iter_pos].
  - replace (K + Z.pos n~1) with (K + 1 + Z.pos n + Z.pos n) by lia.
    apply IH; try lia. apply IH; try lia. apply shr_rep_step; assumption.
  - replace (K + Z.pos n~0) with (K + Z.pos n + Z.pos n) by lia.
    apply IH; try lia. apply IH; assumption.
  - apply shr_rep_step; assumption.
Qed.

Lemma digits2_pos_size (m : positive) : digits2_pos m = Pos.size m.
Proof. induction m as [m IH|m IH|]; cbn; rewrite ?IH; reflexivity. Qed.

Lemma digits2_log2 (m : positive) :
  Zpos (digits2_pos m) = Z.log2 (Zpos m) + 1.
Proof.
  rewrite digits2_pos_size. destruct m; cbn; rewrite ?Pos2Z.inj_succ; lia.
Qed.

Lemma digits2_bounds (m : positive) :
  2 ^ (Zpos (digits2_pos m) - 1) <= Zpos m < 2 ^ Zpos (digits2_pos m).
Proof.
  rewrite digits2_log2. pose proof (Z.log2_spec (Zpos m) eq_refl) as H.
  replace (Z.log2 (Z.pos m) + 1 - 1) with (Z.log2 (Z.pos m)) by lia.
  exact H.
Qed.

Lemma fexp_eq (x : Z) : fexp prec emax x = Z.max (x - 53) (-1074).
Proof. reflexivity. Qed.

Lemma rne_of_record (mrs : shr_record) (X K : Z) :
  0 < 2 ^ K ->
  shr_rep mrs X K ->
  round_nearest_even (shr_m mrs) (loc_of_shr_record mrs) =
  rne (X / 2 ^ K) (X mod 2 ^ K) (2 ^ K).
Proof.
  intros HP (Hm & Hr & Hs). destruct mrs as [m r s].
  cbn [shr_m shr_r shr_s] in *. subst m r s. unfold rne.
  set (rho := X mod 2 ^ K). set (P := 2 ^ K) in *.
  repeat match goal with
    | |- context [?a <=? ?b] => destruct (Z.leb_spec a b)
    | |- context [?a <? ?b] => destruct (Z.ltb_spec a b)
    | |- context [?a =? ?b] => destruct (Z.eqb_spec a b)
    end; cbn; try reflexivity; try lia.
Qed.

Lemma rne_bounds (q rem P : Z) : q <= rne q rem P <= q + 1.
Proof.
  unfold rne.
  destruct (2 * rem <? P), (P <? 2 * rem), (Z.even q); lia.
Qed.

Lemma rne_down (q rem P : Z) : 2 * rem < P -> rne q rem P = q.
Proof.
  intros H. unfold rne. destruct (Z.ltb_spec (2 * rem) P); [reflexivity|lia].
Qed.

(** First shift of [binary_round_aux]. *)
Lemma shr_fexp_exact (M : positive) (E : Z) :
  let n := Z.max 0 (fexp prec emax (Zpos (digits2_pos M) + E) - E) in
  exists mrs,
    shr_fexp prec emax (Zpos M) E loc_Exact = (mrs, E + n) /\
    shr_rep mrs (Zpos M) n.
Proof.
  intros n. unfold shr_fexp, shr. cbn [Zdigits2 shr_record_of_loc].
  subst n. destruct (fexp prec emax (Zpos (digits2_pos M) + E) - E) as [|d|d].
  - replace (E + Z.max 0 0) with E by lia. replace (Z.max 0 0) with 0 by lia.
    eexists. split; [reflexivity|]. apply shr_rep_start.
  - rewrite Z.max_r by lia.
    eexists. split; [reflexivity|].
    apply (shr_rep_iter d _ (Zpos M) 0); try lia. apply shr_rep_start.
  - rewrite Z.max_l by lia. rewrite Z.add_0_r.
    eexists. split; [reflexivity|]. apply shr_rep_start.
Qed.

Lemma digits2_le (p : positive) (k : Z) :
  0 <= k -> Zpos p < 2 ^ k -> Zpos (digits2_pos p) <= k.
Proof.
  intros Hk Hp. pose proof (digits2_bounds p) as [Hlo _].
  destruct (Z.le_gt_cases (Zpos (digits2_pos p)) k) as [H|H]; [exact H|].
  assert (2 ^ k <= 2 ^ (Zpos (digits2_pos p) - 1))
    by (apply Z.pow_le_mono_r; lia).
  lia.
Qed.

Lemma second_shift (m1 e1 : Z) :
  -1074 <= e1 -> 0 <= m1 <= 2 ^ 53 ->
  (let '(mrs, e) := shr_fexp prec emax m1 e1 loc_Exact in
   match shr_m mrs with
   | Z0 => S754_zero false
   | Zpos m =>
       if e <=? emax - prec then S754_finite false m e
       else S754_infinity false
   | Zneg _ => S754_nan
   end) = packed m1 e1.
Proof.
  intros He Hm. unfold packed.
  destruct (Z.eqb_spec m1 0) as [->|Hnz].
  - unfold shr_fexp. cbn [Zdigits2 shr_record_of_loc]. rewrite fexp_eq.
    unfold shr. destruct (Z.max (0 + e1 - 53) (-1074) - e1) eqn:Hd; try reflexivity.
    lia.
  - destruct (Z.ltb_spec m1 (2 ^ 53)) as [Hlt|Hge].
    + destruct m1 as [|p|p]; try lia.
      unfold shr_fexp. cbn [Zdigits2 shr_record_of_loc]. rewrite fexp_eq.
      pose proof (digits2_le p 53 ltac:(lia) Hlt) as Hd.
      unfold shr.
      destruct (Z.max (Z.pos (digits2_pos p) + e1 - 53) (-1074) - e1) eqn:Hn;
        try lia; cbn [shr_m Z.to_pos]; reflexivity.
    + assert (m1 = 2 ^ 53) as -> by lia.
      unfold shr_fexp. rewrite fexp_eq.
      replace (Zdigits2 (2 ^ 53)) with 54 by reflexivity.
      replace (Z.max (54 + e1 - 53) (-1074) - e1) with 1 by lia.
      reflexivity.
Qed.

Lemma binary_round_aux_pos (M : positive) (E : Z) :
  let n := Z.max 0 (fexp prec emax (Zpos (digits2_pos M) + E) - E) in
  let m1 := rne (Zpos M / 2 ^ n) (Zpos M mod 2 ^ n) (2 ^ n) in
  binary_round_aux prec emax false (Zpos M) E loc_Exact = packed m1 (E + n) /\
  0 <= m1 <= 2 ^ 53 /\ -1074 <= E + n.
Proof.
  intros n m1.
  assert (Hn : 0 <= n) by (subst n; lia).
  assert (HP : 0 < 2 ^ n) by (apply Z.pow_pos_nonneg; lia).
  assert (He : -1074 <= E + n) by (subst n; rewrite fexp_eq; lia).
  assert (Hq : 0 <= Zpos M / 2 ^ n < 2 ^ 53).
  { split; [apply Z.div_pos; lia|].
    apply Z.div_lt_upper_bound; [exact HP|].
    pose proof (digits2_bounds M) as [_ Hhi].
    assert (2 ^ Zpos (digits2_pos M) <= 2 ^ (n + 53)).
    { apply Z.pow_le_mono_r; [lia|]. subst n. rewrite fexp_eq. lia. }
    rewrite Z.pow_add_r in H by lia. lia. }
  assert (Hm1 : 0 <= m1 <= 2 ^ 53).
  { pose proof (rne_bounds (Zpos M / 2 ^ n) (Zpos M mod 2 ^ n) (2 ^ n)).
    subst m1. lia. }
  split; [|split; assumption].
  unfold binary_round_aux.
  destruct (shr_fexp_exact M E) as (mrs & Hshr & Hrep). fold n in Hshr, Hrep.
  rewrite Hshr. rewrite (rne_of_record mrs (Zpos M) n HP Hrep). fold m1.
  apply second_shift; assumption.
Qed.

Lemma bounded_facts (m : positive) (e : Z) :
  bounded prec emax m e = true ->
  -1074 <= e <= 971 /\ Zpos m < 2 ^ 53 /\ (-1074 < e -> 2 ^ 52 <= Zpos m).
Proof.
  unfold bounded, canonical_mantissa. rewrite fexp_eq.
  intros H. apply andb_prop in H as [Hc He].
  apply Z.eqb_eq in Hc. apply Z.leb_le in He.
  change (emax - prec) with 971 in He.
  pose proof (digits2_bounds m) as [Hlo Hhi].
  split; [lia|]. split.
  - assert (2 ^ Zpos (digits2_pos m) <= 2 ^ 53)
      by (apply Z.pow_le_mono_r; lia).
    lia.
  - intros Hn. replace (Zpos (digits2_pos m)) with 53 in Hlo by lia.
    exact Hlo.
Qed.

Lemma iter_xO (m d : positive) :
  Zpos (Pos.iter xO m d) = Zpos m * 2 ^ Zpos d.
Proof.
  induction d as [|d IH] using Pos.peano_ind.
  - cbn. lia.
  - rewrite Pos.iter_succ, Pos2Z.inj_xO, IH, Pos2Z.inj_succ, Z.pow_succ_r by lia.
    lia.
Qed.

Lemma shl_align_fst (m : positive) (e ez : Z) :
  ez <= e -> Zpos (fst (shl_align m e ez)) = Zpos m * 2 ^ (e - ez).
Proof.
  intros H. unfold shl_align. destruct (ez - e) as [|d|d] eqn:Hd.
  - replace (e - ez) with 0 by lia. cbn. lia.
  - lia.
  - cbn [fst]. rewrite iter_xO. f_equal. f_equal. lia.
Qed.

Lemma packed_nonneg (m1 e1 : Z) :
  SFleb (S754_zero false) (packed m1 e1) = true.
Proof.
  unfold packed.
  destruct (m1 =? 0), (m1 <? 2 ^ 53), (e1 <=? 971), (e1 + 1 <=? 971);
    reflexivity.
Qed.

Lemma binary_round_nonneg (m : positive) (e : Z) :
  SFleb (S754_zero false) (binary_round prec emax false m e) = true.
Proof.
  unfold binary_round.
  destruct (shl_align m e (fexp prec emax (Zpos (digits2_pos m) + e)))
    as [mz ez].
  destruct (binary_round_aux_pos mz ez) as [-> _]. apply packed_nonneg.
Qed.

Lemma binary_normalize_nonneg (D e : Z) :
  0 <= D ->
  SFleb (S754_zero false) (binary_normalize prec emax D e false) = true.
Proof.
  intros HD. destruct D as [|m|m]; cbn [binary_normalize].
  - reflexivity.
  - apply binary_round_nonneg.
  - lia.
Qed.

Lemma SFsub_nonneg (A B : spec_float) :
  valid_binary A = true -> valid_binary B = true ->
  (forall s, A <> S754_infinity s) -> (forall s, B <> S754_infinity s) ->
  SFleb A B = true ->
  SFleb (S754_zero false) (SFsub prec emax B A) = true.
Proof.
  intros VA VB FA FB Hle.
  destruct A as [sa|sa| |sa ma ea];
    [ | exfalso; eapply FA; reflexivity | discriminate | ];
    (destruct B as [sb|sb| |sb mb eb];
     [ | exfalso; eapply FB; reflexivity | discriminate | ]).
  - destruct sa, sb; reflexivity.
  - destruct sb; [discriminate|]. reflexivity.
  - destruct sa; [|discriminate]. reflexivity.
  - cbn [SFsub]. apply binary_normalize_nonneg.
    cbn [valid_binary] in VA, VB.
    apply bounded_facts in VA as (Hea & Hma & Hna).
    apply bounded_facts in VB as (Heb & Hmb & Hnb).
    rewrite !shl_align_fst by lia.
    unfold SFleb, SFcompare in Hle.
    assert (Hpow : forall k, 0 < k -> 2 <= 2 ^ k).
    { intros k Hk. change 2 with (2 ^ 1) at 1. apply Z.pow_le_mono_r; lia. }
    change (Pos.compare_cont Eq ma mb) with (Pos.compare ma mb) in Hle.
    change (IntDef.Z.min eb ea) with (Z.min eb ea).
    assert (Hab : ea < eb -> Zpos ma <= Zpos mb * 2 ^ (eb - ea)).
    { intros Hlt. specialize (Hpow (eb - ea) ltac:(lia)).
      specialize (Hnb ltac:(lia)). nia. }
    assert (Hba : eb < ea -> Zpos mb <= Zpos ma * 2 ^ (ea - eb)).
    { intros Hlt. specialize (Hpow (ea - eb) ltac:(lia)).
      specialize (Hna ltac:(lia)). nia. }
    destruct sa, sb; cbn [cond_Zopp]; try discriminate; try lia;
      destruct (Z.compare_spec ea eb) as [Heq|Hlt|Hgt]; try discriminate;
      try (subst eb; rewrite Z.min_id, Z.sub_diag, Z.pow_0_r;
           destruct (Pos.compare_spec ma mb); try discriminate; lia).
    + rewrite Z.min_l by lia. rewrite Z.sub_diag, Z.pow_0_r.
      specialize (Hba Hgt). lia.
    + rewrite Z.min_r by lia. rewrite Z.sub_diag, Z.pow_0_r.
      specialize (Hab Hlt). lia.
Qed.

Lemma compare_cont_Z (x y : positive) :
  CompareSpec (Zpos x = Zpos y) (Zpos x < Zpos y) (Zpos y < Zpos x)
              (Pos.compare_cont Eq x y).
Proof. apply (Z.compare_spec (Zpos x) (Zpos y)). Qed.

Lemma shl_align_id (m : positive) (e e' : Z) :
  e <= e' -> shl_align m e e' = (m, e).
Proof.
  intros H. unfold shl_align. destruct (e' - e) eqn:Hd; try reflexivity. lia.
Qed.

Lemma rne_le_exact (S P C : Z) :
  0 < P -> 0 <= S <= C * P -> rne (S / P) (S mod P) P <= C.
Proof.
  intros HP HS.
  pose proof (Z.div_mod S P ltac:(lia)) as Hdm.
  pose proof (Z.mod_pos_bound S P HP) as Hrem.
  pose proof (rne_bounds (S / P) (S mod P) P) as Hb.
  assert (Hq : S / P <= C) by (apply Z.div_le_upper_bound; lia).
  destruct (Z.eq_dec (S / P) C) as [Heq|Hne]; [|lia].
  rewrite rne_down; [lia|]. rewrite Heq in Hdm. nia.
Qed.

Lemma add_one_bounds (mp : positive) (ep : Z) :
  -1074 <= ep <= -46 ->
  Zpos mp <= (100 * 2 ^ 46 - 1) * 2 ^ (-46 - ep) ->
  SFleb SF_one (SF64add (S754_finite false mp ep) SF_one) = true /\
  SFltb (SF64add (S754_finite false mp ep) SF_one) SF_101 = true.
Proof.
  intros Hep Hmp.
  unfold SF64add, SF_one at 2 3. cbn [SFadd cond_Zopp].
  change (IntDef.Z.min ep (-52)) with (Z.min ep (-52)).
  set (ez := Z.min ep (-52)).
  assert (Hez : ez <= ep /\ ez <= -52 /\ -1074 <= ez) by (subst ez; lia).
  pose proof (shl_align_fst mp ep ez ltac:(lia)) as Ha.
  pose proof (shl_align_fst 4503599627370496 (-52) ez ltac:(lia)) as Hb.
  destruct (shl_align mp ep ez) as [a ea].
  destruct (shl_align 4503599627370496 (-52) ez) as [b eb].
  cbn [fst] in *. cbn [Z.add binary_normalize].
  set (s := (a + b)%positive).
  assert (Hs : Zpos s = Zpos mp * 2 ^ (ep - ez) + 2 ^ 52 * 2 ^ (-52 - ez)).
  { subst s. rewrite Pos2Z.inj_add, Ha, Hb. reflexivity. }
  assert (Hlow : 2 ^ (- ez) <= Zpos s).
  { rewrite Hs. replace (- ez) with (52 + (-52 - ez)) by lia.
    rewrite Z.pow_add_r by lia.
    assert (0 <= Zpos mp * 2 ^ (ep - ez))
      by (apply Z.mul_nonneg_nonneg; [lia|apply Z.pow_nonneg; lia]).
    lia. }
  assert (Hupp : Zpos s <= (101 * 2 ^ 46 - 1) * 2 ^ (-46 - ez)).
  { rewrite Hs.
    replace (-46 - ez) with ((-46 - ep) + (ep - ez)) at 1 by lia.
    rewrite Z.pow_add_r by lia.
    replace (2 ^ 52 * 2 ^ (-52 - ez)) with (2 ^ 46 * 2 ^ (-46 - ez)).
    2:{ rewrite <- !Z.pow_add_r by lia. f_equal. lia. }
    replace (-46 - ez) with ((-46 - ep) + (ep - ez)) by lia.
    rewrite Z.pow_add_r by lia.
    assert (0 < 2 ^ (ep - ez)) by (apply Z.pow_pos_nonneg; lia).
    assert (0 < 2 ^ (-46 - ep)) by (apply Z.pow_pos_nonneg; lia).
    nia. }
  pose proof (digits2_bounds s) as [Hdlo Hdhi].
  set (ds := Zpos (digits2_pos s)) in *.
  assert (Hds1 : - ez + 1 <= ds).
  { destruct (Z.le_gt_cases (- ez + 1) ds) as [H|H]; [exact H|].
    assert (2 ^ ds <= 2 ^ (- ez)) by (apply Z.pow_le_mono_r; lia). lia. }
  assert (Hds2 : ds <= 7 - ez).
  { apply digits2_le; [lia|].
    replace (7 - ez) with (53 + (-46 - ez)) by lia.
    rewrite Z.pow_add_r by lia.
    assert (0 < 2 ^ (-46 - ez)) by (apply Z.pow_pos_nonneg; lia).
    nia. }
  unfold binary_round. fold ds. rewrite fexp_eq.
  rewrite shl_align_id by lia.
  destruct (binary_round_aux_pos s ez) as (Hr & Hm1 & He1).
  fold ds in Hr, Hm1, He1. rewrite fexp_eq in Hr, Hm1, He1.
  replace (Z.max 0 (Z.max (ds + ez - 53) (-1074) - ez)) with (ds - 53)
    in Hr, Hm1, He1 by lia.
  rewrite Hr. clear Hr.
  set (n := ds - 53) in *.
  set (m1 := rne (Zpos s / 2 ^ n) (Zpos s mod 2 ^ n) (2 ^ n)) in *.
  assert (HP : 0 < 2 ^ n) by (apply Z.pow_pos_nonneg; lia).
  assert (Hq : 2 ^ 52 <= Zpos s / 2 ^ n).
  { apply Z.div_le_lower_bound; [exact HP|].
    rewrite <- Z.pow_add_r by lia.
    replace (n + 52) with (ds - 1) by lia. exact Hdlo. }
  pose proof (rne_bounds (Zpos s / 2 ^ n) (Zpos s mod 2 ^ n) (2 ^ n)) as Hb1.
  fold m1 in Hb1.
  assert (Htop : ez + n = -46 -> m1 <= 101 * 2 ^ 46 - 1).
  { intros Hn. subst m1. apply rne_le_exact; [exact HP|].
    replace n with (-46 - ez) by lia. lia. }
  assert (Hm1lo : 2 ^ 52 <= m1) by lia.
  assert (Hn46 : ez + n <= -46) by lia.
  assert (Hn52 : -52 <= ez + n) by lia.
  clearbody m1 n ds s ez.
  clear Hs Hlow Hupp Hdlo Hdhi Hds1 Hds2 HP Hq Hb1 Ha Hb Hmp He1 Hez Hep.
  unfold packed, SF_one, SF_101, SFleb, SFltb, SFcompare.
  destruct (Z.eqb_spec m1 0) as [H0|_]; [lia|].
  destruct (Z.ltb_spec m1 (2 ^ 53)) as [Hlt|Hge].
  - destruct (Z.leb_spec (ez + n) 971) as [_|H]; [|lia].
    destruct m1 as [|m1p|m1p]; try lia. cbn [Z.to_pos].
    split.
    + destruct (Z.compare_spec (-52) (ez + n)); try reflexivity; [|lia].
      destruct (compare_cont_Z 4503599627370496 m1p); try reflexivity. lia.
    + destruct (Z.compare_spec (ez + n) (-46)); try reflexivity; [|lia].
      specialize (Htop ltac:(lia)).
      destruct (compare_cont_Z m1p 7107243161944064); try reflexivity; lia.
  - destruct (Z.leb_spec (ez + n + 1) 971) as [_|H]; [|lia].
    assert (Hne : ez + n <> -46) by (intros H; specialize (Htop H); lia).
    split.
    + destruct (Z.compare_spec (-52) (ez + n + 1)); try reflexivity; lia.
    + destruct (Z.compare_spec (ez + n + 1) (-46)); try reflexivity; lia.
Qed.

Lemma pow2_ge_1 (k : Z) : 0 <= k -> 1 <= 2 ^ k.
Proof. intros H. pose proof (Z.pow_pos_nonneg 2 k ltac:(lia) H). lia. Qed.

Lemma pow2_ge_2 (k : Z) : 0 < k -> 2 <= 2 ^ k.
Proof.
  intros H. change 2 with (2 ^ 1) at 1. apply Z.pow_le_mono_r; lia.
Qed.

Lemma digits2_ge (p : positive) (k : Z) :
  2 ^ k <= Zpos p -> k + 1 <= Zpos (digits2_pos p).
Proof.
  intros Hp. pose proof (digits2_bounds p) as [_ Hhi].
  destruct (Z.le_gt_cases (k + 1) (Zpos (digits2_pos p))) as [H|H]; [exact H|].
  assert (2 ^ Zpos (digits2_pos p) <= 2 ^ k)
    by (apply Z.pow_le_mono_r; lia).
  lia.
Qed.

Lemma mul_100_bounds (mu : positive) (eu : Z) :
  bounded prec emax mu eu = true ->
  eu < -52 ->
  exists mp ep,
    SF64mul SF_100 (S754_finite false mu eu) = S754_finite false mp ep /\
    -1074 <= ep <= -46 /\
    Zpos mp <= (100 * 2 ^ 46 - 1) * 2 ^ (-46 - ep).
Proof.
  intros Hb Heu. apply bounded_facts in Hb as (Hrange & Hmu & Hnorm).
  unfold SF64mul, SF_100. cbn [SFmul xorb].
  set (M := (7036874417766400 * mu)%positive).
  set (E := -46 + eu).
  assert (HM : Zpos M = 7036874417766400 * Zpos mu) by reflexivity.
  destruct (binary_round_aux_pos M E) as (Hr & Hm1 & He1).
  rewrite fexp_eq in Hr, Hm1, He1.
  pose proof (digits2_bounds M) as [Hdlo Hdhi].
  assert (Hd53 : 53 <= Zpos (digits2_pos M))
    by (apply (digits2_ge M 52); lia).
  assert (Hd106 : Zpos (digits2_pos M) <= 106)
    by (apply digits2_le; [lia|]; nia).
  set (dM := Zpos (digits2_pos M)) in *.
  replace (Z.max 0 (Z.max (dM + E - 53) (-1074) - E))
    with (Z.max (dM + E - 53) (-1074) - E) in Hr, Hm1, He1 by lia.
  set (e1 := Z.max (dM + E - 53) (-1074)) in *.
  replace (E + (e1 - E)) with e1 in Hr, He1 by lia.
  set (n := e1 - E) in *.
  set (m1 := rne (Zpos M / 2 ^ n) (Zpos M mod 2 ^ n) (2 ^ n)) in *.
  assert (Hn : 0 <= n <= dM - 1) by (subst n e1 E; lia).
  assert (HP : 0 < 2 ^ n) by (apply Z.pow_pos_nonneg; lia).
  assert (Hq1 : 1 <= Zpos M / 2 ^ n).
  { apply Z.div_le_lower_bound; [exact HP|].
    assert (2 ^ n <= 2 ^ (dM - 1)) by (apply Z.pow_le_mono_r; lia). lia. }
  pose proof (rne_bounds (Zpos M / 2 ^ n) (Zpos M mod 2 ^ n) (2 ^ n)) as Hb1.
  fold m1 in Hb1.
  rewrite Hr. unfold packed.
  destruct (Z.eqb_spec m1 0) as [H0|_]; [lia|].
  assert (He46 : e1 <= -46) by (subst e1 E; lia).
  destruct (Z.eq_dec e1 (-46)) as [Heq|Hne].
  - (* the product lies in the binade of 64: eu = -53 and n = 53 *)
    assert (eu = -53) by (subst e1 E; lia).
    assert (Hn53 : n = 53) by (subst n e1 E; lia).
    assert (Htop : m1 <= 100 * 2 ^ 46 - 1).
    { subst m1. rewrite Hn53.
      pose proof (Z.div_mod (Zpos M) (2 ^ 53) ltac:(lia)) as Hdm.
      pose proof (Z.mod_pos_bound (Zpos M) (2 ^ 53) ltac:(lia)) as Hrem.
      pose proof (rne_bounds (Zpos M / 2 ^ 53) (Zpos M mod 2 ^ 53) (2 ^ 53)).
      destruct (Z.eq_dec (Zpos M / 2 ^ 53) (100 * 2 ^ 46 - 1)) as [Hq|Hq].
      - rewrite rne_down; lia.
      - assert (Zpos M / 2 ^ 53 <= 100 * 2 ^ 46 - 1); lia. }
    destruct (Z.ltb_spec m1 (2 ^ 53)) as [_|Hge]; [|lia].
    destruct (Z.leb_spec e1 971) as [_|Hbig]; [|lia].
    exists (Z.to_pos m1), e1. split; [reflexivity|]. split; [lia|].
    rewrite Z2Pos.id by lia. rewrite Heq. cbn. lia.
  - assert (Hp2 : 2 <= 2 ^ (-46 - e1)) by (apply pow2_ge_2; lia).
    destruct (Z.ltb_spec m1 (2 ^ 53)) as [Hlt|Hge].
    + destruct (Z.leb_spec e1 971) as [_|Hbig]; [|lia].
      exists (Z.to_pos m1), e1. split; [reflexivity|]. split; [lia|].
      rewrite Z2Pos.id by lia. nia.
    + destruct (Z.leb_spec (e1 + 1) 971) as [_|Hbig]; [|lia].
      exists (Z.to_pos (2 ^ 52)), (e1 + 1). split; [reflexivity|].
      split; [lia|].
      assert (1 <= 2 ^ (-46 - (e1 + 1))) by (apply pow2_ge_1; lia).
      change (Zpos (Z.to_pos (2 ^ 52))) with (2 ^ 52). nia.
Qed.

Lemma unit_interval_scaled_SF (U : spec_float) :
  valid_binary U = true ->
  SFleb (S754_zero false) U = true ->
  SFltb U SF_one = true ->
  SFleb SF_one (SF64add (SF64mul SF_100 U) SF_one) = true /\
  SFltb (SF64add (SF64mul SF_100 U) SF_one) SF_101 = true.
Proof.
  intros HV H0 H1. destruct U as [s|s| |s mu eu].
  - destruct s; split; reflexivity.
  - destruct s; discriminate.
  - discriminate.
  - destruct s; [discriminate|]. cbn [valid_binary] in HV.
    assert (Heu : eu < -52).
    { pose proof (bounded_facts mu eu HV) as (_ & _ & Hnorm).
      unfold SFltb, SF_one, SFcompare in H1.
      destruct (Z.compare_spec eu (-52)) as [Heq|Hlt|Hgt];
        [|exact Hlt|discriminate].
      destruct (compare_cont_Z mu 4503599627370496); try discriminate.
      specialize (Hnorm ltac:(lia)). lia. }
    destruct (mul_100_bounds mu eu HV Heu) as (mp & ep & -> & Hep & Hmp).
    apply add_one_bounds; assumption.
Qed.

Lemma Prim2SF_one : Prim2SF 1 = SF_one.
Proof. reflexivity. Qed.

Lemma Prim2SF_100 : Prim2SF 100 = SF_100.
Proof. reflexivity. Qed.

Lemma Prim2SF_101 : Prim2SF 101 = SF_101.
Proof. reflexivity. Qed.

(** [100*u+1] for [u] in [0, 1). *)
Lemma unit_interval_scaled (u : float) :
  (0 <=? u)%float = true -> (u <? 1)%float = true ->
  (1 <=? 100 * u + 1)%float = true /\ (100 * u + 1 <? 101)%float = true.
Proof.
  rewrite !leb_spec, !ltb_spec, add_spec, mul_spec.
  rewrite Prim2SF_one, Prim2SF_100, Prim2SF_101, Prim2SF_zero.
  apply unit_interval_scaled_SF. apply Prim2SF_valid.
Qed.

Lemma is_finite_SF (x : float) :
  is_finite x = true -> forall s, Prim2SF x <> S754_infinity s.
Proof.
  unfold is_finite, is_infinity. intros H s E.
  apply negb_true_iff, orb_false_iff in H as [_ H].
  rewrite eqb_spec, abs_spec, E in H. discriminate.
Qed.

(** The difference of two finite numbers in order is not negative. *)
Lemma sub_nonneg (a b : float) :
  is_finite a = true -> is_finite b = true ->
  (a <=? b)%float = true -> (0 <=? b - a)%float = true.
Proof.
  intros Ha Hb. rewrite !leb_spec, sub_spec, Prim2SF_zero.
  apply SFsub_nonneg; try apply Prim2SF_valid; apply is_finite_SF; assumption.
Qed.

Lemma at_least_one_positive (x : float) :
  (1 <=? x)%float = true -> (0 <? x)%float = true.
Proof.
  rewrite leb_spec, ltb_spec, Prim2SF_one, Prim2SF_zero.
  destruct (Prim2SF x) as [s|s| |s m e]; try destruct s; cbn; congruence.
Qed.

(** ** [lg10] and [np.log10] on one number *)

Lemma m_log10_positive (x : float) :
  strictly_positive x ->
  m_log10 x = Ok (log10_math x).
Proof.
  intros H. unfold m_log10, log10_math. rewrite (positive_not_nan x H), H.
  destruct (is_finite x); reflexivity.
Qed.

Lemma m_log10_non_positive (x : float) :
  non_positive x -> m_log10 x = Err ValueError.
Proof.
  intros H. unfold m_log10.
  rewrite (non_positive_not_nan x H), (non_positive_not_positive x H).
  destruct (is_finite x); reflexivity.
Qed.

Lemma m_log10_only_ValueError (x : float) (e : exn) :
  m_log10 x = Err e -> e = ValueError.
Proof.
  unfold m_log10.
  destruct (is_finite x), (0 <? x)%float, (is_nan x); congruence.
Qed.

Lemma np_log10_1_positive (x : float) :
  strictly_positive x ->
  np_log10_1 x = log10_numpy x.
Proof.
  intros H. unfold np_log10_1. rewrite (positive_not_nan x H), H. reflexivity.
Qed.

Lemma np_log10_1_non_positive (x : float) :
  non_positive x ->
  np_log10_1 x = if (x =? 0)%float then neg_infinity else nan.
Proof.
  intros H. unfold np_log10_1.
  rewrite (non_positive_not_nan x H), (non_positive_not_positive x H).
  reflexivity.
Qed.

(** ** Sequences of results *)

Lemma mapM_map {A B} (f : A -> result B) (g : A -> B) (xs : list A) :
  (forall x, In x xs -> f x = Ok (g x)) -> mapM f xs = Ok (map g xs).
Proof.
  induction xs as [|x xs IH]; intros H; cbn.
  - reflexivity.
  - rewrite (H x) by (left; reflexivity).
    rewrite IH by (intros y Hy; apply H; right; exact Hy).
    reflexivity.
Qed.

Lemma mapM_length {A B} (f : A -> result B) (xs : list A) (ys : list B) :
  mapM f xs = Ok ys -> length ys = length xs.
Proof.
  revert ys. induction xs as [|x xs IH]; intros ys; cbn.
  - intros [= <-]. reflexivity.
  - destruct (f x) as [y|e]; [|discriminate].
    destruct (mapM f xs) as [ys'|e]; [|discriminate].
    intros [= <-]. cbn. f_equal. apply IH. reflexivity.
Qed.

Lemma mapM_fails {A B} (f : A -> result B) (xs : list A) (x : A) (e : exn) :
  In x xs -> f x = Err e ->
  (forall y e', f y = Err e' -> e' = e) ->
  mapM f xs = Err e.
Proof.
  intros Hin Hx Honly. induction xs as [|z xs IH]; [destruct Hin|].
  cbn. destruct (f z) as [y|e'] eqn:Hz.
  - destruct Hin as [->|Hin]; [congruence|].
    rewrite (IH Hin). reflexivity.
  - f_equal. eapply Honly. exact Hz.
Qed.

Lemma run_until_ok {A B} (f : A -> result B) (xs : list A) (ys : list B) :
  mapM f xs = Ok ys -> run_until f xs = (ys, None).
Proof.
  revert ys. induction xs as [|x xs IH]; intros ys; cbn.
  - intros [= <-]. reflexivity.
  - destruct (f x) as [y|e]; [|discriminate].
    destruct (mapM f xs) as [ys'|e]; [|discriminate].
    intros [= <-]. rewrite (IH ys' eq_refl). reflexivity.
Qed.

Lemma run_until_err {A B} (f : A -> result B) (xs : list A) (e : exn) :
  mapM f xs = Err e -> exists ys, run_until f xs = (ys, Some e).
Proof.
  induction xs as [|x xs IH]; cbn; [discriminate|].
  destruct (f x) as [y|e'].
  - destruct (mapM f xs) as [ys'|e']; [discriminate|].
    intros [= <-]. destruct (IH eq_refl) as [ys Hys].
    rewrite Hys. eexists. reflexivity.
  - intros [= <-]. eexists. reflexivity.
Qed.

(** ** The list that grows under [append] *)

Lemma appended_cons q y ys s :
  appended q (y :: ys) s = appended q ys (set_heap q (heap s q ++ [y]) s).
Proof. reflexivity. Qed.

Lemma appended_env q ys s : env (appended q ys s) = env s.
Proof.
  revert s. induction ys as [|y ys IH]; intros s; [reflexivity|].
  rewrite appended_cons, IH. reflexivity.
Qed.

Lemma appended_next q ys s : next (appended q ys s) = next s.
Proof.
  revert s. induction ys as [|y ys IH]; intros s; [reflexivity|].
  rewrite appended_cons, IH. reflexivity.
Qed.

Lemma appended_ticks q ys s : ticks (appended q ys s) = ticks s.
Proof.
  revert s. induction ys as [|y ys IH]; intros s; [reflexivity|].
  rewrite appended_cons, IH. reflexivity.
Qed.

Lemma appended_draws q ys s : draws (appended q ys s) = draws s.
Proof.
  revert s. induction ys as [|y ys IH]; intros s; [reflexivity|].
  rewrite appended_cons, IH. reflexivity.
Qed.

Lemma store_same p xs h : store p xs h p = xs.
Proof. unfold store. rewrite Nat.eqb_refl. reflexivity. Qed.

Lemma store_other p r xs h : r <> p -> store p xs h r = h r.
Proof.
  intros H. unfold store. destruct (Nat.eqb_spec r p); [contradiction|reflexivity].
Qed.

Lemma appended_here q ys s : heap (appended q ys s) q = heap s q ++ ys.
Proof.
  revert s. induction ys as [|y ys IH]; intros s.
  - cbn. rewrite app_nil_r. reflexivity.
  - rewrite appended_cons, IH. cbn. rewrite store_same, <- app_assoc.
    reflexivity.
Qed.

Lemma appended_elsewhere q r ys s :
  r <> q -> heap (appended q ys s) r = heap s r.
Proof.
  intros H. revert s. induction ys as [|y ys IH]; intros s; [reflexivity|].
  rewrite appended_cons, IH. cbn. apply store_other. exact H.
Qed.

(** The loop of the first strategy, started at any index: it appends the
    logarithms of the remaining elements to the list at [q] and stops at
    the first element whose logarithm is not defined. *)
Lemma for_in_append_log (p q : loc) :
  p <> q ->
  forall (rest pre : list float) (s : state) (fuel : nat),
    env s l2 = Some (VList q) ->
    heap s p = pre ++ rest ->
    (length rest < fuel)%nat ->
    for_in fuel p (length pre) append_log s =
    match run_until (fun x => lg10 (VFloat x)) rest with
    | (ys, None) => Ret tt (appended q ys s)
    | (ys, Some e) => Exc e (appended q ys s)
    end.
Proof.
  intros Hpq. induction rest as [|x rest IH]; intros pre s fuel Hq Hp Hfuel.
  - destruct fuel as [|fuel]; [cbn in Hfuel; lia|].
    cbn [for_in run_until]. rewrite Hp, app_nil_r.
    replace (nth_error pre (length pre)) with (@None float)
      by (symmetry; apply nth_error_None; lia).
    reflexivity.
  - destruct fuel as [|fuel]; [cbn in Hfuel; lia|].
    cbn [for_in run_until]. rewrite Hp.
    rewrite nth_error_app2, Nat.sub_diag by lia. cbn [nth_error].
    unfold append_log at 1, bind, lookup_list, lookup, bind. rewrite Hq.
    cbn [ret]. destruct (lg10 (VFloat x)) as [y|e]; cbn [lift ret raise append].
    + replace (S (length pre)) with (length (pre ++ [x]))
        by (rewrite length_app; cbn; lia).
      rewrite IH.
      * destruct (run_until _ rest) as [ys [e|]]; reflexivity.
      * exact Hq.
      * cbn. rewrite store_other by exact Hpq. rewrite Hp, <- app_assoc.
        reflexivity.
      * cbn in Hfuel. lia.
    + reflexivity.
Qed.

(** ** The frame of a timed cell *)

Lemma timed_run (body : M unit) (s : state) :
  timed body s =
  match body (started s) with
  | Ret _ s2 => stop_clock s2
  | Exc e s2 => Exc e s2
  | OutOfFuel => OutOfFuel
  end.
Proof. reflexivity. Qed.

Lemma stop_clock_run (s : state) (a : float) (sp : loc) :
  env s t1 = Some (VFloat a) ->
  env s speed = Some (VList sp) ->
  stop_clock s = Ret tt (stopped a sp s).
Proof.
  intros Ht1 Hsp.
  unfold stop_clock, record_duration, lookup_float, lookup_list, lookup,
    bind, time_time, assign, append, ret.
  cbn. rewrite Ht1. cbn. rewrite Hsp. reflexivity.
Qed.

Lemma prepared_started s p q sp xs :
  prepared s p q sp xs -> prepared (started s) p q sp xs.
Proof. intros []. constructor; cbn; assumption. Qed.

Lemma timed_ok (body : M unit) (s s2 : state) (p q' sp : loc) xs :
  body (started s) = Ret tt s2 ->
  body_step s s2 p q' sp xs ->
  exists s',
    timed body s = Ret tt s' /\
    timed_step s s' p q' sp xs /\
    (forall r, r <> sp -> heap s' r = heap s2 r) /\
    (forall x, x <> t2 -> env s' x = env s2 x).
Proof.
  intros Hrun [Hpre Ht1 Hspeed Hticks Hdraws Hnext].
  exists (stopped (wall_clock (ticks s)) sp s2).
  rewrite timed_run, Hrun.
  rewrite (stop_clock_run s2 _ sp Ht1 (pre_speed _ _ _ _ _ Hpre)).
  split; [reflexivity|]. split; [|split].
  - destruct Hpre. constructor.
    + constructor; cbn; try assumption.
      rewrite store_other by assumption. assumption.
    + cbn. rewrite store_same, Hspeed, Hticks. reflexivity.
    + cbn. rewrite Hticks. reflexivity.
    + cbn. assumption.
    + cbn. assumption.
  - intros r Hr. cbn. apply store_other. exact Hr.
  - intros x Hx. cbn. destruct x; try reflexivity. congruence.
Qed.

(** ** The four computations *)

Lemma range_In (a b i : Z) : In i (range a b) -> a <= i < b.
Proof.
  unfold range. rewrite in_map_iff. intros (k & <- & Hk).
  apply in_seq in Hk. lia.
Qed.

Lemma range_length (a b : Z) : length (range a b) = Z.to_nat (b - a).
Proof. unfold range. rewrite length_map, length_seq. reflexivity. Qed.

Lemma lg10_small_int (i : Z) :
  1 <= i < 1000001 -> lg10 (VInt i) = Ok (libm_log10 (float_of_int i)).
Proof.
  intros Hi. unfold lg10.
  destruct (Z.leb_spec i 0) as [H0|H0]; [lia|].
  assert (Hbig : 1000001 < dbl_overflow) by (vm_compute; reflexivity).
  destruct (Z.ltb_spec i dbl_overflow) as [H1|H1]; [reflexivity|lia].
Qed.

Lemma comprehension_values :
  mapM (fun i => lg10 (VInt i)) (range 1 1000001) = Ok log10_table.
Proof.
  unfold log10_table. apply mapM_map.
  intros i Hi. apply lg10_small_int. apply range_In. exact Hi.
Qed.

Lemma log10_table_length : Z.of_nat (length log10_table) = 1000000.
Proof.
  unfold log10_table. rewrite length_map, range_length. lia.
Qed.

Lemma loop_append_run fuel s p q sp xs :
  prepared s p q sp xs ->
  (length xs < fuel)%nat ->
  loop_append fuel (started s) =
  match run_until (fun x => lg10 (VFloat x)) xs with
  | (ys, None) => Ret tt (appended q ys (started s))
  | (ys, Some e) => Exc e (appended q ys (started s))
  end.
Proof.
  intros Hpre Hfuel.
  destruct (prepared_started _ _ _ _ _ Hpre)
    as [Hl1 Hl2 Hsp Ha1 Hsample Hpq Hpsp Hqsp Hpl Hql Hspl].
  unfold loop_append, bind, lookup_list, lookup, bind. cbv beta.
  rewrite Hl1. cbn [ret].
  apply (for_in_append_log p q Hpq xs [] (started s) fuel); assumption.
Qed.

Lemma comprehension_run (s : state) :
  comprehension s =
  Ret tt (set_var l2 (VList (next s))
            (mkState (env s) (store (next s) log10_table (heap s))
                     (S (next s)) (ticks s) (draws s))).
Proof.
  unfold comprehension, bind. rewrite comprehension_values. reflexivity.
Qed.

Lemma map_op1_run s p xs :
  env s l1 = Some (VList p) ->
  heap s p = xs ->
  map_op1 s =
  match mapM (fun x => lg10 (VFloat x)) xs with
  | Ok ys =>
      Ret tt (set_var l2 (VList (next s))
                (mkState (env s) (store (next s) ys (heap s))
                         (S (next s)) (ticks s) (draws s)))
  | Err e => Exc e s
  end.
Proof.
  intros Hl1 Hp.
  unfold map_op1, bind, lookup_list, lookup, contents, op1, bind. cbv beta.
  rewrite Hl1. cbn [ret]. rewrite Hp.
  destruct (mapM _ xs); reflexivity.
Qed.

Lemma vectorized_run s xs :
  env s a1 = Some (VArray xs) ->
  vectorized s = Ret tt (set_var a2 (VArray (np_log10 xs)) s).
Proof.
  intros Ha1. unfold vectorized, bind, lookup_array, lookup, bind. cbv beta.
  rewrite Ha1. reflexivity.
Qed.

(** ** Sample Sets of positive numbers, and those with a bad element *)

Lemma logs_of_positive (xs : list float) :
  Forall strictly_positive xs ->
  mapM (fun x => lg10 (VFloat x)) xs = Ok (map log10_math xs).
Proof.
  intros H. apply mapM_map. intros x Hx. cbn.
  apply m_log10_positive. rewrite Forall_forall in H. apply H. exact Hx.
Qed.

Lemma logs_of_non_positive (xs : list float) (x : float) :
  In x xs -> non_positive x ->
  mapM (fun y => lg10 (VFloat y)) xs = Err ValueError.
Proof.
  intros Hin Hx. apply (mapM_fails _ xs x ValueError Hin).
  - cbn. apply m_log10_non_positive. exact Hx.
  - cbn. intros y e'. apply m_log10_only_ValueError.
Qed.

Lemma np_log10_positive (xs : list float) :
  Forall strictly_positive xs -> np_log10 xs = map log10_numpy xs.
Proof.
  intros H. unfold np_log10. apply map_ext_in. intros x Hx.
  apply np_log10_1_positive. rewrite Forall_forall in H. apply H. exact Hx.
Qed.

(** ** The four strategy cells *)

Lemma prepared_appended s p q sp xs ys :
  prepared s p q sp xs -> prepared (appended q ys s) p q sp xs.
Proof.
  intros [Hl1 Hl2 Hsp Ha1 Hsample Hpq Hpsp Hqsp Hpl Hql Hspl].
  constructor; rewrite ?appended_env, ?appended_next; try assumption.
  rewrite appended_elsewhere by assumption. assumption.
Qed.

Lemma strategy_for_ok fuel s p q sp xs ys :
  prepared s p q sp xs ->
  mapM (fun x => lg10 (VFloat x)) xs = Ok ys ->
  (length xs < fuel)%nat ->
  exists s',
    strategy_for fuel s = Ret tt s' /\
    timed_step s s' p q sp xs /\
    heap s' q = heap s q ++ ys.
Proof.
  intros Hpre Hys Hfuel.
  pose proof (loop_append_run fuel s p q sp xs Hpre Hfuel) as Hrun.
  rewrite (run_until_ok _ _ _ Hys) in Hrun.
  destruct (timed_ok _ s _ p q sp xs Hrun) as (s' & Hs' & Hstep & Hheap & _).
  - constructor.
    + apply prepared_appended, prepared_started, Hpre.
    + rewrite appended_env. reflexivity.
    + rewrite appended_elsewhere by (destruct Hpre; congruence). reflexivity.
    + rewrite appended_ticks. reflexivity.
    + rewrite appended_draws. reflexivity.
    + rewrite appended_next. cbn. lia.
  - exists s'. split; [exact Hs'|]. split; [exact Hstep|].
    rewrite Hheap by (destruct Hpre; assumption).
    rewrite appended_here. reflexivity.
Qed.

Lemma strategy_for_raises fuel s p q sp xs e :
  prepared s p q sp xs ->
  mapM (fun x => lg10 (VFloat x)) xs = Err e ->
  (length xs < fuel)%nat ->
  exists ys, strategy_for fuel s = Exc e (appended q ys (started s)).
Proof.
  intros Hpre Hys Hfuel.
  pose proof (loop_append_run fuel s p q sp xs Hpre Hfuel) as Hrun.
  destruct (run_until_err _ _ _ Hys) as [ys Hrest]. rewrite Hrest in Hrun.
  exists ys. unfold strategy_for. rewrite timed_run, Hrun. reflexivity.
Qed.

Lemma prepared_rebound s p q sp xs ys :
  prepared s p q sp xs ->
  prepared
    (set_var l2 (VList (next s))
       (mkState (env s) (store (next s) ys (heap s)) (S (next s))
                (ticks s) (draws s)))
    p (next s) sp xs.
Proof.
  intros [Hl1 Hl2 Hsp Ha1 Hsample Hpq Hpsp Hqsp Hpl Hql Hspl].
  constructor; cbn; try assumption; try lia; try reflexivity.
  rewrite store_other by lia. assumption.
Qed.

Lemma strategy_comprehension_ok s p q sp xs :
  prepared s p q sp xs ->
  exists s',
    strategy_comprehension s = Ret tt s' /\
    timed_step s s' p (next s) sp xs /\
    heap s' (next s) = log10_table.
Proof.
  intros Hpre.
  pose proof (comprehension_run (started s)) as Hrun.
  destruct (timed_ok _ s _ p (next s) sp xs Hrun) as (s' & Hs' & Hstep & Hheap & _).
  - constructor; try reflexivity.
    + eapply (prepared_rebound (started s)). apply prepared_started. exact Hpre.
    + cbn. apply store_other. destruct Hpre. lia.
    + cbn. lia.
  - exists s'. split; [exact Hs'|]. split; [exact Hstep|].
    rewrite Hheap by (destruct Hpre; lia). cbn. apply store_same.
Qed.

Lemma strategy_map_ok s p q sp xs ys :
  prepared s p q sp xs ->
  mapM (fun x => lg10 (VFloat x)) xs = Ok ys ->
  exists s',
    strategy_map s = Ret tt s' /\
    timed_step s s' p (next s) sp xs /\
    heap s' (next s) = ys.
Proof.
  intros Hpre Hys.
  pose proof (map_op1_run (started s) p xs) as Hrun.
  rewrite Hys in Hrun.
  specialize (Hrun (pre_l1 _ _ _ _ _ (prepared_started _ _ _ _ _ Hpre))
                   (pre_sample _ _ _ _ _ Hpre)).
  destruct (timed_ok _ s _ p (next s) sp xs Hrun) as (s' & Hs' & Hstep & Hheap & _).
  - constructor; try reflexivity.
    + eapply (prepared_rebound (started s)). apply prepared_started. exact Hpre.
    + cbn. apply store_other. destruct Hpre. lia.
    + cbn. lia.
  - exists s'. split; [exact Hs'|]. split; [exact Hstep|].
    rewrite Hheap by (destruct Hpre; lia). cbn. apply store_same.
Qed.

Lemma strategy_map_raises s p q sp xs e :
  prepared s p q sp xs ->
  mapM (fun x => lg10 (VFloat x)) xs = Err e ->
  strategy_map s = Exc e (started s).
Proof.
  intros Hpre Hys.
  pose proof (map_op1_run (started s) p xs) as Hrun.
  rewrite Hys in Hrun.
  specialize (Hrun (pre_l1 _ _ _ _ _ (prepared_started _ _ _ _ _ Hpre))
                   (pre_sample _ _ _ _ _ Hpre)).
  unfold strategy_map. rewrite timed_run, Hrun. reflexivity.
Qed.

Lemma strategy_numpy_ok s p q sp xs :
  prepared s p q sp xs ->
  exists s',
    strategy_numpy s = Ret tt s' /\
    timed_step s s' p q sp xs /\
    env s' a2 = Some (VArray (np_log10 xs)) /\
    heap s' q = heap s q.
Proof.
  intros Hpre.
  pose proof (vectorized_run (started s) xs) as Hrun.
  specialize (Hrun (pre_a1 _ _ _ _ _ (prepared_started _ _ _ _ _ Hpre))).
  destruct (timed_ok _ s _ p q sp xs Hrun) as (s' & Hs' & Hstep & Hheap & Henv).
  - constructor; try reflexivity.
    destruct Hpre. constructor; cbn; assumption.
  - exists s'. split; [exact Hs'|]. split; [exact Hstep|]. split.
    + rewrite Henv by discriminate. reflexivity.
    + rewrite Hheap by (destruct Hpre; assumption). reflexivity.
Qed.

(** ** Every outcome of the for-loop cell *)

Lemma for_in_ensures (Inv : state -> Prop) (p : loc)
  (body : float -> M unit) :
  (forall item s, Inv s -> ensures (body item s) Inv) ->
  forall fuel i s, Inv s -> ensures (for_in fuel p i body s) Inv.
Proof.
  intros Hbody. induction fuel as [|fuel IH]; intros i s Hs; cbn; [exact I|].
  destruct (nth_error (heap s p) i) as [item|]; [|exact Hs].
  specialize (Hbody item s Hs).
  destruct (body item s) as [[] s'|e s'|]; cbn in Hbody.
  - apply IH. exact Hbody.
  - exact Hbody.
  - exact I.
Qed.

Lemma appended_snoc q ys y s :
  appended q (ys ++ [y]) s =
  set_heap q (heap (appended q ys s) q ++ [y]) (appended q ys s).
Proof. unfold appended. rewrite fold_left_app. reflexivity. Qed.

Lemma loop_append_ensures fuel s p q sp xs :
  prepared s p q sp xs ->
  ensures (loop_append fuel (started s))
          (fun s2 => exists ys, s2 = appended q ys (started s)).
Proof.
  intros Hpre.
  destruct (prepared_started _ _ _ _ _ Hpre)
    as [Hl1 Hl2 Hsp Ha1 Hsample Hpq Hpsp Hqsp Hpl Hql Hspl].
  unfold loop_append, bind, lookup_list, lookup, bind. cbv beta.
  rewrite Hl1. cbn [ret].
  apply for_in_ensures; [|exists []; reflexivity].
  intros item s2 [ys ->].
  unfold append_log, bind, lookup_list, lookup, bind. cbv beta.
  rewrite appended_env, Hl2. cbn [ret].
  destruct (lg10 (VFloat item)) as [y|e]; cbn.
  - exists (ys ++ [y]). rewrite appended_snoc. reflexivity.
  - exists ys. reflexivity.
Qed.

Lemma strategy_for_outcome fuel s p q sp xs :
  prepared s p q sp xs ->
  match strategy_for fuel s with
  | Ret _ s' =>
      exists ys, s' = stopped (wall_clock (ticks s)) sp
                        (appended q ys (started s))
  | Exc _ s' => exists ys, s' = appended q ys (started s)
  | OutOfFuel => True
  end.
Proof.
  intros Hpre. pose proof (loop_append_ensures fuel s p q sp xs Hpre) as H.
  unfold strategy_for. rewrite timed_run.
  destruct (loop_append fuel (started s)) as [[] s2|e s2|]; cbn in H.
  - destruct H as [ys ->].
    rewrite (stop_clock_run _ (wall_clock (ticks s)) sp).
    + exists ys. reflexivity.
    + rewrite appended_env. reflexivity.
    + rewrite appended_env. cbn. exact (pre_speed _ _ _ _ _ Hpre).
  - exact H.
  - exact I.
Qed.

Lemma ensures_impl {A} (r : res A) (Q Q' : state -> Prop) :
  ensures r Q -> (forall s, Q s -> Q' s) -> ensures r Q'.
Proof. destruct r; cbn; auto. Qed.

Lemma prepared_intact s p q sp xs :
  prepared s p q sp xs -> sample_intact p xs s.
Proof. intros []. split; assumption. Qed.

Lemma strategy_for_terminates fuel s p q sp xs :
  prepared s p q sp xs ->
  (length xs < fuel)%nat ->
  strategy_for fuel s <> OutOfFuel.
Proof.
  intros Hpre Hfuel.
  destruct (mapM (fun x => lg10 (VFloat x)) xs) as [ys|e] eqn:Hys.
  - destruct (strategy_for_ok fuel s p q sp xs ys Hpre Hys Hfuel)
      as (s' & -> & _). discriminate.
  - destruct (strategy_for_raises fuel s p q sp xs e Hpre Hys Hfuel)
      as (ys & ->). discriminate.
Qed.

(** [l2=[]] in a prepared kernel. *)
Lemma cell_l2_ok s p q sp xs :
  prepared s p q sp xs ->
  exists s',
    cell_l2 s = Ret tt s' /\
    prepared s' p (next s) sp xs /\
    heap s' (next s) = [] /\
    heap s' sp = heap s sp /\
    ticks s' = ticks s.
Proof.
  intros Hpre. eexists. split; [reflexivity|].
  split; [eapply prepared_rebound; exact Hpre|].
  split; [apply store_same|]. split; [|reflexivity].
  cbn. apply store_other. destruct Hpre. lia.
Qed.

Lemma kernel_with_prepared (xs ys ds : list float) :
  prepared (kernel_with xs ys ds) 1 2 0 xs.
Proof. constructor; cbn; solve [reflexivity | discriminate | lia]. Qed.

(** ** Reading the lists of a prepared kernel *)

Lemma list_of_l1 s p q sp xs :
  prepared s p q sp xs -> list_of l1 s = Some xs.
Proof.
  intros H. unfold list_of.
  rewrite (pre_l1 _ _ _ _ _ H), (pre_sample _ _ _ _ _ H). reflexivity.
Qed.

Lemma list_of_l2 s p q sp xs :
  prepared s p q sp xs -> list_of l2 s = Some (heap s q).
Proof.
  intros H. unfold list_of. rewrite (pre_l2 _ _ _ _ _ H). reflexivity.
Qed.

Lemma list_of_speed s p q sp xs :
  prepared s p q sp xs -> list_of speed s = Some (heap s sp).
Proof.
  intros H. unfold list_of. rewrite (pre_speed _ _ _ _ _ H). reflexivity.
Qed.

Lemma range_nth (a b : Z) (k : nat) :
  Z.of_nat k < b - a -> nth_error (range a b) k = Some (a + Z.of_nat k).
Proof.
  intros Hk. unfold range.
  rewrite nth_error_map, nth_error_seq.
  destruct (Nat.ltb_spec k (Z.to_nat (b - a))); [reflexivity|lia].
Qed.

Lemma log10_table_nth (i : Z) :
  1 <= i <= 1000000 ->
  nth_error log10_table (Z.to_nat (i - 1)) =
  Some (libm_log10 (float_of_int i)).
Proof.
  intros Hi. unfold log10_table.
  rewrite nth_error_map, range_nth by lia.
  cbn [option_map]. do 3 f_equal. lia.
Qed.

(** ** The set-up cells *)

Lemma bind_ret {A B} (c : M A) (k : A -> M B) (s s' : state) (a : A) :
  c s = Ret a s' -> bind c k s = k a s'.
Proof. intros H. unfold bind. rewrite H. reflexivity. Qed.

Lemma drawn_length (d : nat) (n : Z) :
  0 <= n -> Z.of_nat (length (drawn d n)) = n.
Proof. intros H. unfold drawn. rewrite !length_map, length_seq. lia. Qed.

Lemma drawn_nth (d k : nat) (n : Z) :
  Z.of_nat k < n ->
  nth_error (drawn d n) k = Some (100 * uniform (d + k) + 1)%float.
Proof.
  intros H. unfold drawn. rewrite !nth_error_map, nth_error_seq.
  destruct (Nat.ltb_spec k (Z.to_nat n)); [reflexivity|lia].
Qed.

Lemma drawn_in_range (d : nat) (n : Z) :
  (forall k, unit_interval (uniform k)) -> Forall in_range (drawn d n).
Proof.
  intros Hu. unfold drawn. rewrite map_map. apply Forall_forall.
  intros x Hx. apply in_map_iff in Hx as (k & <- & _).
  destruct (Hu k) as [H0 H1]. apply unit_interval_scaled; assumption.
Qed.

Lemma in_range_positive (x : float) : in_range x -> strictly_positive x.
Proof. intros [H _]. apply at_least_one_positive. exact H. Qed.

Lemma cell_globals_run (s : state) :
  cell_globals s =
  Ret tt (set_var speed (VList (next s))
            (mkState (env (set_var N (VInt 1000000) s))
                     (store (next s) [] (heap s)) (S (next s))
                     (ticks s) (draws s))).
Proof. reflexivity. Qed.

Lemma cell_l1_run (s : state) (n : Z) :
  env s N = Some (VInt n) ->
  0 <= n ->
  cell_l1 s =
  Ret tt (set_var l1 (VList (next s))
            (mkState (env s) (store (next s) (drawn (draws s) n) (heap s))
                     (S (next s)) (ticks s) (draws s + Z.to_nat n))).
Proof.
  intros HN Hn.
  unfold cell_l1, bind, lookup_int, lookup, bind, np_random_random. cbv beta.
  rewrite HN. cbn [ret]. destruct (Z.ltb_spec n 0); [lia|]. reflexivity.
Qed.

(** From the cell that draws the Sample Set to the first strategy. *)
Lemma sample_cells_ok (s : state) (n : Z) (sp : loc) :
  env s N = Some (VInt n) ->
  0 <= n ->
  env s speed = Some (VList sp) ->
  (sp < next s)%nat ->
  exists s',
    (cell_l1 ;; cell_a1 ;; cell_l2) s = Ret tt s' /\
    prepared s' (next s) (S (next s)) sp (drawn (draws s) n) /\
    heap s' sp = heap s sp /\
    heap s' (S (next s)) = [] /\
    ticks s' = ticks s.
Proof.
  intros HN Hn Hsp Hlive.
  eexists. split.
  - rewrite (bind_ret _ _ _ _ _ (cell_l1_run s n HN Hn)).
    reflexivity.
  - split; [|split; [|split]].
    + constructor; cbn; try reflexivity; try lia; try assumption.
      * rewrite store_same. reflexivity.
      * rewrite store_other by lia. apply store_same.
    + cbn. rewrite !store_other by lia. reflexivity.
    + cbn. apply store_same.
    + reflexivity.
Qed.

Lemma set_up_ok :
  exists s',
    set_up fresh_kernel = Ret tt s' /\
    prepared s' 1 2 0 (drawn 0 1000000) /\
    heap s' 0%nat = [] /\
    heap s' 2%nat = [] /\
    ticks s' = 0%nat.
Proof.
  pose proof (cell_globals_run fresh_kernel) as Hg.
  set (s1 := set_var speed (VList (next fresh_kernel)) _) in Hg.
  assert (HN : env s1 N = Some (VInt 1000000)) by reflexivity.
  assert (Hsp : env s1 speed = Some (VList 0)) by reflexivity.
  assert (Hlive : (0 < next s1)%nat) by (cbn; lia).
  destruct (sample_cells_ok s1 1000000 0 HN ltac:(lia) Hsp Hlive)
    as (s' & Hrun & Hpre & Hspeed & Hq & Ht).
  exists s'. split.
  - unfold set_up. rewrite (bind_ret _ _ _ _ _ Hg). exact Hrun.
  - split; [exact Hpre|]. split; [|split; [exact Hq|exact Ht]].
    rewrite Hspeed. reflexivity.
Qed.

Lemma cell_l3_run (s : state) (ys : list float) :
  env s a2 = Some (VArray ys) ->
  cell_l3 s =
  Ret tt (set_var l3 (VList (next s))
            (mkState (env s) (store (next s) ys (heap s)) (S (next s))
                     (ticks s) (draws s))).
Proof.
  intros H. unfold cell_l3, bind, lookup_array, lookup, bind. cbv beta.
  rewrite H. reflexivity.
Qed.

(** ** The claims *)

(** C10.  The for-loop strategy does not build a list of its own: it leaves
    [l2] bound to the object it found there, and when it is done that
    object holds what it held before followed by the logarithms of the
    elements of the Sample Set, in order.  So the output is exactly the
    mapped Sample Set just when the list was empty beforehand. *)
Theorem for_loop_appends_to_existing_list
  (fuel : nat) (s : state) (p q sp : loc) (xs prior ys : list float) :
  prepared s p q sp xs ->
  heap s q = prior ->
  mapM (fun x => lg10 (VFloat x)) xs = Ok ys ->
  (length xs < fuel)%nat ->
  exists s',
    strategy_for fuel s = Ret tt s' /\
    env s' l2 = Some (VList q) /\
    list_of l2 s' = Some (prior ++ ys) /\
    (list_of l2 s' = Some ys <-> prior = []).
Proof.
  intros Hpre Hprior Hys Hfuel.
  destruct (strategy_for_ok fuel s p q sp xs ys Hpre Hys Hfuel)
    as (s' & Hrun & Hstep & Hq).
  exists s'. split; [exact Hrun|].
  destruct Hstep as [Hpre' _ _ _ _].
  split; [exact (pre_l2 _ _ _ _ _ Hpre')|].
  rewrite (list_of_l2 _ _ _ _ _ Hpre'), Hq, Hprior.
  split; [reflexivity|]. split.
  - intros [= H]. apply (f_equal (@length float)) in H.
    rewrite length_app in H. destruct prior; [reflexivity|cbn in H; lia].
  - intros ->. reflexivity.
Qed.

(** C2.  The comprehension computes over [range(1,1000001)] and never
    reads the Sample Set: run in any two prepared kernels, whatever their
    Sample Sets, it leaves in [l2] one and the same list of 1,000,000
    numbers, whose [i]-th element is [lg10(i)]. *)
Theorem comprehension_ignores_sample_set
  (s : state) (p q sp : loc) (xs : list float)
  (s0 : state) (p0 q0 sp0 : loc) (xs0 : list float) :
  prepared s p q sp xs ->
  prepared s0 p0 q0 sp0 xs0 ->
  exists s' s0',
    strategy_comprehension s = Ret tt s' /\
    strategy_comprehension s0 = Ret tt s0' /\
    list_of l2 s' = Some log10_table /\
    list_of l2 s0' = Some log10_table /\
    Z.of_nat (length log10_table) = 1000000 /\
    forall i, 1 <= i <= 1000000 ->
      exists y, lg10 (VInt i) = Ok y /\
                nth_error log10_table (Z.to_nat (i - 1)) = Some y.
Proof.
  intros Hpre Hpre0.
  destruct (strategy_comprehension_ok s p q sp xs Hpre)
    as (s' & Hrun & [Hpre' _ _ _ _] & Hq).
  destruct (strategy_comprehension_ok s0 p0 q0 sp0 xs0 Hpre0)
    as (s0' & Hrun0 & [Hpre0' _ _ _ _] & Hq0).
  exists s', s0'.
  split; [exact Hrun|]. split; [exact Hrun0|].
  split; [|split; [|split]].
  - rewrite (list_of_l2 _ _ _ _ _ Hpre'), Hq. reflexivity.
  - rewrite (list_of_l2 _ _ _ _ _ Hpre0'), Hq0. reflexivity.
  - apply log10_table_length.
  - intros i Hi. exists (libm_log10 (float_of_int i)). split.
    + apply lg10_small_int. lia.
    + apply log10_table_nth. exact Hi.
Qed.

(** C1.  The four strategies are meant to compute the same Result Set
    from the same Sample Set.  The code departs from this: on the Sample
    Set [4.0, 100.0] the for-loop (started with [l2] empty) and [map] both
    leave the two logarithms in [l2] and NumPy leaves two numbers in [a2],
    while the comprehension leaves 1,000,000 numbers in [l2]. *)
Theorem comprehension_result_differs_from_the_others :
  exists s1 s2 s3 s4 ys,
    strategy_for 3 (kernel_with [4%float; 100%float] [] []) = Ret tt s1 /\
    strategy_comprehension (kernel_with [4%float; 100%float] [] [])
      = Ret tt s2 /\
    strategy_map (kernel_with [4%float; 100%float] [] []) = Ret tt s3 /\
    strategy_numpy (kernel_with [4%float; 100%float] [] []) = Ret tt s4 /\
    list_of l2 s1 = Some [libm_log10 4; libm_log10 100] /\
    list_of l2 s3 = Some [libm_log10 4; libm_log10 100] /\
    array_of a2 s4 = Some [npy_log10 4; npy_log10 100] /\
    list_of l2 s2 = Some ys /\
    Z.of_nat (length ys) = 1000000.
Proof.
  pose proof (kernel_with_prepared [4%float; 100%float] [] []) as Hpre.
  assert (Hys : mapM (fun x => lg10 (VFloat x)) [4%float; 100%float]
                = Ok [libm_log10 4; libm_log10 100]) by reflexivity.
  destruct (strategy_for_ok 3 _ _ _ _ _ _ Hpre Hys) as (s1 & H1 & [P1 _ _ _ _] & R1);
    [cbn; lia|].
  destruct (strategy_comprehension_ok _ _ _ _ _ Hpre) as (s2 & H2 & [P2 _ _ _ _] & R2).
  destruct (strategy_map_ok _ _ _ _ _ _ Hpre Hys) as (s3 & H3 & [P3 _ _ _ _] & R3).
  destruct (strategy_numpy_ok _ _ _ _ _ Hpre) as (s4 & H4 & _ & R4 & _).
  exists s1, s2, s3, s4, log10_table.
  split; [exact H1|]. split; [exact H2|]. split; [exact H3|].
  split; [exact H4|].
  split; [rewrite (list_of_l2 _ _ _ _ _ P1), R1; reflexivity|].
  split; [rewrite (list_of_l2 _ _ _ _ _ P3), R3; reflexivity|].
  split; [unfold array_of; rewrite R4; reflexivity|].
  split; [rewrite (list_of_l2 _ _ _ _ _ P2), R2; reflexivity|].
  apply log10_table_length.
Qed.

(** C6.  On an empty Sample Set every strategy is meant to finish with a
    duration and an empty Result Set.  The for-loop (started with [l2]
    empty), [map] and NumPy do; the comprehension finishes and records its
    duration too, but its Result Set has 1,000,000 elements. *)
Theorem comprehension_result_on_empty_sample_set :
  exists s1 s2 s3 s4 ys,
    strategy_for 1 (kernel_with [] [] []) = Ret tt s1 /\
    strategy_comprehension (kernel_with [] [] []) = Ret tt s2 /\
    strategy_map (kernel_with [] [] []) = Ret tt s3 /\
    strategy_numpy (kernel_with [] [] []) = Ret tt s4 /\
    list_of l2 s1 = Some [] /\
    list_of l2 s3 = Some [] /\
    array_of a2 s4 = Some [] /\
    list_of speed s1 = Some [duration (kernel_with [] [] [])] /\
    list_of speed s2 = Some [duration (kernel_with [] [] [])] /\
    list_of speed s3 = Some [duration (kernel_with [] [] [])] /\
    list_of speed s4 = Some [duration (kernel_with [] [] [])] /\
    list_of l2 s2 = Some ys /\
    Z.of_nat (length ys) = 1000000.
Proof.
  pose proof (kernel_with_prepared [] [] []) as Hpre.
  assert (Hys : mapM (fun x => lg10 (VFloat x)) [] = Ok []) by reflexivity.
  destruct (strategy_for_ok 1 _ _ _ _ _ _ Hpre Hys) as (s1 & H1 & [P1 D1 _ _ _] & R1);
    [cbn; lia|].
  destruct (strategy_comprehension_ok _ _ _ _ _ Hpre) as (s2 & H2 & [P2 D2 _ _ _] & R2).
  destruct (strategy_map_ok _ _ _ _ _ _ Hpre Hys) as (s3 & H3 & [P3 D3 _ _ _] & R3).
  destruct (strategy_numpy_ok _ _ _ _ _ Hpre) as (s4 & H4 & [P4 D4 _ _ _] & R4 & _).
  exists s1, s2, s3, s4, log10_table.
  split; [exact H1|]. split; [exact H2|]. split; [exact H3|].
  split; [exact H4|].
  split; [rewrite (list_of_l2 _ _ _ _ _ P1), R1; reflexivity|].
  split; [rewrite (list_of_l2 _ _ _ _ _ P3), R3; reflexivity|].
  split; [unfold array_of; rewrite R4; reflexivity|].
  split; [rewrite (list_of_speed _ _ _ _ _ P1), D1; reflexivity|].
  split; [rewrite (list_of_speed _ _ _ _ _ P2), D2; reflexivity|].
  split; [rewrite (list_of_speed _ _ _ _ _ P3), D3; reflexivity|].
  split; [rewrite (list_of_speed _ _ _ _ _ P4), D4; reflexivity|].
  split; [rewrite (list_of_l2 _ _ _ _ _ P2), R2; reflexivity|].
  apply log10_table_length.
Qed.

(** C3, as the code has it.  When the Sample Set holds a number that is
    zero or negative, the for-loop and [map] strategies stop with the
    domain error of [math.log10], and record no duration.  The NumPy
    strategy does not fail: it finishes, and its Result Set holds -inf for
    a zero and NaN for a negative number. *)
Theorem non_positive_element_raises_except_in_numpy
  (fuel : nat) (s : state) (p q sp : loc) (xs : list float) (x : float) :
  prepared s p q sp xs ->
  In x xs ->
  non_positive x ->
  (length xs < fuel)%nat ->
  (exists s', strategy_for fuel s = Exc ValueError s' /\
              list_of speed s' = list_of speed s) /\
  (exists s', strategy_map s = Exc ValueError s' /\
              list_of speed s' = list_of speed s) /\
  (exists s', strategy_numpy s = Ret tt s' /\
              array_of a2 s' = Some (np_log10 xs) /\
              In (if (x =? 0)%float then neg_infinity else nan)
                 (np_log10 xs)).
Proof.
  intros Hpre Hin Hx Hfuel.
  pose proof (logs_of_non_positive xs x Hin Hx) as Hys.
  split; [|split].
  - destruct (strategy_for_raises fuel s p q sp xs _ Hpre Hys Hfuel)
      as [ys Hrun].
    eexists. split; [exact Hrun|].
    unfold list_of. rewrite appended_env. cbn.
    rewrite (pre_speed _ _ _ _ _ Hpre).
    rewrite appended_elsewhere by (destruct Hpre; congruence).
    reflexivity.
  - eexists. split; [exact (strategy_map_raises s p q sp xs _ Hpre Hys)|].
    reflexivity.
  - destruct (strategy_numpy_ok s p q sp xs Hpre) as (s' & Hrun & _ & Ha2 & _).
    exists s'. split; [exact Hrun|]. split.
    + unfold array_of. rewrite Ha2. reflexivity.
    + rewrite <- (np_log10_1_non_positive x Hx).
      unfold np_log10. apply in_map. exact Hin.
Qed.

(** C5, as the code has it.  On a Sample Set of strictly positive numbers
    the comprehension, [map] and NumPy strategies give the same Result Set
    when run a second time, and no strategy changes the Sample Set.  The
    for-loop appends to the list that [l2] names: its second run leaves the
    Result Set of the first followed by the logarithms once more, and two
    runs give the same Result Set when [l2=[]] is run before each. *)
Theorem rerun_repeats_result_unless_appending
  (fuel : nat) (s : state) (p q sp : loc) (xs : list float) :
  prepared s p q sp xs ->
  Forall strictly_positive xs ->
  (length xs < fuel)%nat ->
  (exists s1 s2,
     strategy_comprehension s = Ret tt s1 /\
     strategy_comprehension s1 = Ret tt s2 /\
     list_of l2 s1 = Some log10_table /\
     list_of l2 s2 = Some log10_table /\
     list_of l1 s2 = Some xs) /\
  (exists s1 s2,
     strategy_map s = Ret tt s1 /\
     strategy_map s1 = Ret tt s2 /\
     list_of l2 s1 = Some (map log10_math xs) /\
     list_of l2 s2 = Some (map log10_math xs) /\
     list_of l1 s2 = Some xs) /\
  (exists s1 s2,
     strategy_numpy s = Ret tt s1 /\
     strategy_numpy s1 = Ret tt s2 /\
     array_of a2 s1 = Some (map log10_numpy xs) /\
     array_of a2 s2 = Some (map log10_numpy xs) /\
     array_of a1 s2 = Some xs /\
     list_of l1 s2 = Some xs) /\
  (exists s1 s2,
     strategy_for fuel s = Ret tt s1 /\
     strategy_for fuel s1 = Ret tt s2 /\
     list_of l2 s1 = Some (heap s q ++ map log10_math xs) /\
     list_of l2 s2 =
       Some ((heap s q ++ map log10_math xs) ++ map log10_math xs) /\
     list_of l1 s2 = Some xs) /\
  (exists r1 s1 r2 s2,
     cell_l2 s = Ret tt r1 /\
     strategy_for fuel r1 = Ret tt s1 /\
     cell_l2 s1 = Ret tt r2 /\
     strategy_for fuel r2 = Ret tt s2 /\
     list_of l2 s1 = Some (map log10_math xs) /\
     list_of l2 s2 = Some (map log10_math xs) /\
     list_of l1 s2 = Some xs).
Proof.
  intros Hpre Hpos Hfuel.
  pose proof (logs_of_positive xs Hpos) as Hys.
  split; [|split; [|split; [|split]]].
  - destruct (strategy_comprehension_ok s p q sp xs Hpre)
      as (s1 & H1 & [P1 _ _ _ _] & R1).
    destruct (strategy_comprehension_ok s1 _ _ _ _ P1)
      as (s2 & H2 & [P2 _ _ _ _] & R2).
    exists s1, s2. split; [exact H1|]. split; [exact H2|].
    rewrite (list_of_l2 _ _ _ _ _ P1), (list_of_l2 _ _ _ _ _ P2), R1, R2.
    split; [reflexivity|]. split; [reflexivity|].
    exact (list_of_l1 _ _ _ _ _ P2).
  - destruct (strategy_map_ok s p q sp xs _ Hpre Hys)
      as (s1 & H1 & [P1 _ _ _ _] & R1).
    destruct (strategy_map_ok s1 _ _ _ _ _ P1 Hys)
      as (s2 & H2 & [P2 _ _ _ _] & R2).
    exists s1, s2. split; [exact H1|]. split; [exact H2|].
    rewrite (list_of_l2 _ _ _ _ _ P1), (list_of_l2 _ _ _ _ _ P2), R1, R2.
    split; [reflexivity|]. split; [reflexivity|].
    exact (list_of_l1 _ _ _ _ _ P2).
  - destruct (strategy_numpy_ok s p q sp xs Hpre)
      as (s1 & H1 & [P1 _ _ _ _] & R1 & _).
    destruct (strategy_numpy_ok s1 _ _ _ _ P1)
      as (s2 & H2 & [P2 _ _ _ _] & R2 & _).
    exists s1, s2. split; [exact H1|]. split; [exact H2|].
    unfold array_of. rewrite R1, R2, (pre_a1 _ _ _ _ _ P2).
    rewrite (np_log10_positive xs Hpos).
    split; [reflexivity|]. split; [reflexivity|]. split; [reflexivity|].
    exact (list_of_l1 _ _ _ _ _ P2).
  - destruct (strategy_for_ok fuel s p q sp xs _ Hpre Hys Hfuel)
      as (s1 & H1 & [P1 _ _ _ _] & R1).
    destruct (strategy_for_ok fuel s1 p q sp xs _ P1 Hys Hfuel)
      as (s2 & H2 & [P2 _ _ _ _] & R2).
    exists s1, s2. split; [exact H1|]. split; [exact H2|].
    rewrite (list_of_l2 _ _ _ _ _ P1), (list_of_l2 _ _ _ _ _ P2), R2, R1.
    split; [reflexivity|]. split; [reflexivity|].
    exact (list_of_l1 _ _ _ _ _ P2).
  - destruct (cell_l2_ok s p q sp xs Hpre) as (r1 & C1 & Q1 & E1 & _).
    destruct (strategy_for_ok fuel r1 p _ sp xs _ Q1 Hys Hfuel)
      as (s1 & H1 & [P1 _ _ _ _] & R1).
    destruct (cell_l2_ok s1 p _ sp xs P1) as (r2 & C2 & Q2 & E2 & _).
    destruct (strategy_for_ok fuel r2 p _ sp xs _ Q2 Hys Hfuel)
      as (s2 & H2 & [P2 _ _ _ _] & R2).
    exists r1, s1, r2, s2.
    split; [exact C1|]. split; [exact H1|].
    split; [exact C2|]. split; [exact H2|].
    rewrite (list_of_l2 _ _ _ _ _ P1), (list_of_l2 _ _ _ _ _ P2), R1, R2, E1, E2.
    split; [reflexivity|]. split; [reflexivity|].
    exact (list_of_l1 _ _ _ _ _ P2).
Qed.

(** C8.  Whatever a strategy cell does, finish or raise, [l1] names the
    same object afterwards and that object holds the same numbers: the
    Sample Set is only read.  No cell runs out of steps (the for-loop needs
    one step per element and one more). *)
Theorem sample_set_is_only_read
  (fuel : nat) (s : state) (p q sp : loc) (xs : list float) :
  prepared s p q sp xs ->
  ensures (strategy_for fuel s) (sample_intact p xs) /\
  ensures (strategy_comprehension s) (sample_intact p xs) /\
  ensures (strategy_map s) (sample_intact p xs) /\
  ensures (strategy_numpy s) (sample_intact p xs) /\
  ((length xs < fuel)%nat -> strategy_for fuel s <> OutOfFuel) /\
  strategy_comprehension s <> OutOfFuel /\
  strategy_map s <> OutOfFuel /\
  strategy_numpy s <> OutOfFuel.
Proof.
  intros Hpre.
  assert (Hstart : forall ys, sample_intact p xs (appended q ys (started s))).
  { intros ys. apply (prepared_intact _ p q sp xs).
    apply prepared_appended, prepared_started, Hpre. }
  split; [|split; [|split; [|split; [|split; [|split; [|split]]]]]].
  - pose proof (strategy_for_outcome fuel s p q sp xs Hpre) as H.
    destruct (strategy_for fuel s) as [[] s'|e s'|]; cbn; [| |exact I].
    + destruct H as [ys ->]. destruct (Hstart ys) as [Hl1 Hp].
      split; cbn; [exact Hl1|].
      rewrite store_other by (destruct Hpre; assumption). exact Hp.
    + destruct H as [ys ->]. apply Hstart.
  - destruct (strategy_comprehension_ok s p q sp xs Hpre)
      as (s' & -> & [P _ _ _ _] & _).
    exact (prepared_intact _ _ _ _ _ P).
  - destruct (mapM (fun x => lg10 (VFloat x)) xs) as [ys|e] eqn:Hys.
    + destruct (strategy_map_ok s p q sp xs ys Hpre Hys)
        as (s' & -> & [P _ _ _ _] & _).
      exact (prepared_intact _ _ _ _ _ P).
    + rewrite (strategy_map_raises s p q sp xs e Hpre Hys).
      exact (Hstart []).
  - destruct (strategy_numpy_ok s p q sp xs Hpre)
      as (s' & -> & [P _ _ _ _] & _).
    exact (prepared_intact _ _ _ _ _ P).
  - apply (strategy_for_terminates fuel s p q sp xs Hpre).
  - destruct (strategy_comprehension_ok s p q sp xs Hpre) as (s' & -> & _).
    discriminate.
  - destruct (mapM (fun x => lg10 (VFloat x)) xs) as [ys|e] eqn:Hys.
    + destruct (strategy_map_ok s p q sp xs ys Hpre Hys) as (s' & -> & _).
      discriminate.
    + rewrite (strategy_map_raises s p q sp xs e Hpre Hys). discriminate.
  - destruct (strategy_numpy_ok s p q sp xs Hpre) as (s' & -> & _).
    discriminate.
Qed.

(** C9.  The frame around a timed computation handles no exception: when
    the computation raises, the cell raises the same exception in the
    state the computation had reached, so the clock is not read again and
    nothing is appended to [speed].  When the computation is one of the
    four of the notebook, in a prepared kernel, [speed] therefore holds
    after the failure what it held before the cell. *)
Theorem timing_frame_propagates_errors
  (body : M unit) (s s2 : state) (e : exn) :
  body (started s) = Exc e s2 ->
  timed body s = Exc e s2 /\
  forall (fuel : nat) (p q sp : loc) (xs : list float),
    prepared s p q sp xs ->
    body = loop_append fuel \/ body = comprehension \/
    body = map_op1 \/ body = vectorized ->
    list_of speed s2 = list_of speed s /\ ticks s2 = S (ticks s).
Proof.
  intros Hbody.
  assert (Hrun : timed body s = Exc e s2)
    by (rewrite timed_run, Hbody; reflexivity).
  split; [exact Hrun|].
  intros fuel p q sp xs Hpre H.
  assert (Hstart : forall ys,
             list_of speed (appended q ys (started s)) = list_of speed s /\
             ticks (appended q ys (started s)) = S (ticks s)).
  { intros ys. unfold list_of. rewrite appended_env, appended_ticks. cbn.
    rewrite (pre_speed _ _ _ _ _ Hpre).
    rewrite appended_elsewhere by (destruct Hpre; congruence).
    split; reflexivity. }
  destruct H as [-> | [-> | [-> | ->]]].
  - pose proof (loop_append_ensures fuel s p q sp xs Hpre) as Hout.
    rewrite Hbody in Hout. destruct Hout as [ys ->]. apply Hstart.
  - rewrite comprehension_run in Hbody. discriminate.
  - rewrite (map_op1_run (started s) p xs) in Hbody.
    + destruct (mapM (fun x => lg10 (VFloat x)) xs); [discriminate|].
      injection Hbody as _ <-. exact (Hstart []).
    + exact (pre_l1 _ _ _ _ _ (prepared_started _ _ _ _ _ Hpre)).
    + exact (pre_sample _ _ _ _ _ Hpre).
  - rewrite (vectorized_run (started s) xs) in Hbody; [discriminate|].
    exact (pre_a1 _ _ _ _ _ (prepared_started _ _ _ _ _ Hpre)).
Qed.

(** C4.  With [N = 1000000], and [np.random.random] drawing its numbers
    from [0, 1), the cell that makes the Sample Set finishes and binds [l1]
    to a list of exactly 1,000,000 numbers, the [k]-th made of the [k]-th
    draw, every one of them at least 1 and less than 101. *)
Theorem data_generator_draws_a_million_in_range (s : state) :
  (forall k, unit_interval (uniform k)) ->
  exists s',
    (cell_globals ;; cell_l1) s = Ret tt s' /\
    list_of l1 s' = Some (drawn (draws s) 1000000) /\
    Z.of_nat (length (drawn (draws s) 1000000)) = 1000000 /\
    Forall in_range (drawn (draws s) 1000000) /\
    forall k : nat,
      Z.of_nat k < 1000000 ->
      nth_error (drawn (draws s) 1000000) k =
      Some (100 * uniform (draws s + k) + 1)%float.
Proof.
  intros Hu.
  pose proof (cell_globals_run s) as Hg.
  set (s1 := set_var speed (VList (next s)) _) in Hg.
  assert (HN : env s1 N = Some (VInt 1000000)) by reflexivity.
  pose proof (cell_l1_run s1 1000000 HN ltac:(lia)) as Hl1.
  change (draws s1) with (draws s) in Hl1.
  eexists. split.
  - rewrite (bind_ret _ _ _ _ _ Hg). exact Hl1.
  - split; [|split; [|split]].
    + unfold list_of. cbn [env set_var var_eqb heap]. rewrite store_same.
      reflexivity.
    + apply drawn_length. lia.
    + apply drawn_in_range. exact Hu.
    + intros k Hk. apply drawn_nth. exact Hk.
Qed.

(** C7.  A run of the whole notebook from a fresh kernel, with the
    generator drawing from [0, 1) and enough steps for the loop over the
    1,000,000 elements, finishes; each strategy cell in turn (for-loop,
    comprehension, [map], NumPy) adds one number to [speed], the
    difference of its two readings of the clock; so [speed] ends with
    exactly these four durations in that order.  When in each cell the
    second reading is not earlier than the first, none of them is
    negative. *)
Theorem notebook_records_four_durations (fuel : nat) :
  (forall k, unit_interval (uniform k)) ->
  1000000 < Z.of_nat fuel ->
  exists s0 s1 s2 s3 s4 s',
    set_up fresh_kernel = Ret tt s0 /\
    list_of speed s0 = Some [] /\
    strategy_for fuel s0 = Ret tt s1 /\
    list_of speed s1 = Some [elapsed 0] /\
    strategy_comprehension s1 = Ret tt s2 /\
    list_of speed s2 = Some [elapsed 0; elapsed 1] /\
    strategy_map s2 = Ret tt s3 /\
    list_of speed s3 = Some [elapsed 0; elapsed 1; elapsed 2] /\
    strategy_numpy s3 = Ret tt s4 /\
    list_of speed s4 = Some [elapsed 0; elapsed 1; elapsed 2; elapsed 3] /\
    cell_l3 s4 = Ret tt s' /\
    notebook fuel fresh_kernel = Ret tt s' /\
    list_of speed s' = Some [elapsed 0; elapsed 1; elapsed 2; elapsed 3] /\
    ((forall j, (j < 4)%nat -> clock_in_order j) ->
     Forall (fun d => (0 <=? d)%float = true)
            [elapsed 0; elapsed 1; elapsed 2; elapsed 3]).
Proof.
  intros Hu Hfuel.
  destruct set_up_ok as (s0 & H0 & P0 & D0 & _ & T0).
  pose proof (drawn_in_range 0 1000000 Hu) as Hrange.
  assert (Hpos : Forall strictly_positive (drawn 0 1000000)).
  { eapply Forall_impl; [|exact Hrange]. apply in_range_positive. }
  pose proof (logs_of_positive _ Hpos) as Hys.
  assert (Hlen : (length (drawn 0 1000000) < fuel)%nat).
  { pose proof (drawn_length 0 1000000 ltac:(lia)). lia. }
  destruct (strategy_for_ok fuel s0 _ _ _ _ _ P0 Hys Hlen)
    as (s1 & H1 & [P1 D1 T1 _ _] & _).
  destruct (strategy_comprehension_ok s1 _ _ _ _ P1)
    as (s2 & H2 & [P2 D2 T2 _ _] & _).
  destruct (strategy_map_ok s2 _ _ _ _ _ P2 Hys)
    as (s3 & H3 & [P3 D3 T3 _ _] & _).
  destruct (strategy_numpy_ok s3 _ _ _ _ P3)
    as (s4 & H4 & [P4 D4 T4 _ _] & A4 & _).
  pose proof (cell_l3_run s4 _ A4) as H5.
  set (s' := set_var l3 (VList (next s4)) _) in H5.
  assert (E0 : duration s0 = elapsed 0)
    by (unfold duration, elapsed; rewrite T0; reflexivity).
  assert (E1 : duration s1 = elapsed 1)
    by (unfold duration, elapsed; rewrite T1, T0; reflexivity).
  assert (E2 : duration s2 = elapsed 2)
    by (unfold duration, elapsed; rewrite T2, T1, T0; reflexivity).
  assert (E3 : duration s3 = elapsed 3)
    by (unfold duration, elapsed; rewrite T3, T2, T1, T0; reflexivity).
  rewrite D0, E0 in D1. rewrite D1, E1 in D2. rewrite D2, E2 in D3.
  rewrite D3, E3 in D4. cbn [app] in D1, D2, D3, D4.
  assert (D5 : list_of speed s' =
               Some [elapsed 0; elapsed 1; elapsed 2; elapsed 3]).
  { unfold list_of. subst s'. cbn [env set_var var_eqb heap].
    rewrite (pre_speed _ _ _ _ _ P4).
    rewrite store_other by (pose proof (pre_sp_live _ _ _ _ _ P4); lia).
    rewrite D4. reflexivity. }
  exists s0, s1, s2, s3, s4, s'.
  split; [exact H0|].
  split; [rewrite (list_of_speed _ _ _ _ _ P0), D0; reflexivity|].
  split; [exact H1|].
  split; [rewrite (list_of_speed _ _ _ _ _ P1), D1; reflexivity|].
  split; [exact H2|].
  split; [rewrite (list_of_speed _ _ _ _ _ P2), D2; reflexivity|].
  split; [exact H3|].
  split; [rewrite (list_of_speed _ _ _ _ _ P3), D3; reflexivity|].
  split; [exact H4|].
  split; [rewrite (list_of_speed _ _ _ _ _ P4), D4; reflexivity|].
  split; [exact H5|].
  split.
  { unfold notebook.
    rewrite (bind_ret _ _ _ _ _ H0), (bind_ret _ _ _ _ _ H1),
      (bind_ret _ _ _ _ _ H2), (bind_ret _ _ _ _ _ H3),
      (bind_ret _ _ _ _ _ H4).
    exact H5. }
  split; [exact D5|].
  intros Hclock.
  assert (Hj : forall j, (j < 4)%nat -> (0 <=? elapsed j)%float = true).
  { intros j Hlt. destruct (Hclock j Hlt) as (Fa & Fb & Hle).
    unfold elapsed. apply sub_nonneg; assumption. }
  repeat constructor; apply Hj; lia.
Qed.

(** X1.  The three strategies that read the Sample Set agree.  On a
    Sample Set of strictly positive numbers the for-loop, started with [l2]
    empty, and [map] leave the same list in [l2], the logarithm of every
    element in order; NumPy leaves in [a2] an array of the same length,
    equal to that list wherever NumPy's routine returns what the C library
    returns. *)
Theorem strategies_reading_the_sample_agree
  (fuel : nat) (s : state) (p q sp : loc) (xs : list float) :
  prepared s p q sp xs ->
  heap s q = [] ->
  Forall strictly_positive xs ->
  (length xs < fuel)%nat ->
  exists s1 s2 s3,
    strategy_for fuel s = Ret tt s1 /\
    strategy_map s = Ret tt s2 /\
    strategy_numpy s = Ret tt s3 /\
    list_of l2 s1 = Some (map log10_math xs) /\
    list_of l2 s2 = Some (map log10_math xs) /\
    array_of a2 s3 = Some (map log10_numpy xs) /\
    length (map log10_numpy xs) = length (map log10_math xs) /\
    ((forall x, is_finite x = true -> npy_log10 x = libm_log10 x) ->
     map log10_numpy xs = map log10_math xs).
Proof.
  intros Hpre Hq Hpos Hfuel.
  pose proof (logs_of_positive xs Hpos) as Hys.
  destruct (strategy_for_ok fuel s p q sp xs _ Hpre Hys Hfuel)
    as (s1 & H1 & [P1 _ _ _ _] & R1).
  destruct (strategy_map_ok s p q sp xs _ Hpre Hys)
    as (s2 & H2 & [P2 _ _ _ _] & R2).
  destruct (strategy_numpy_ok s p q sp xs Hpre) as (s3 & H3 & _ & R3 & _).
  exists s1, s2, s3.
  split; [exact H1|]. split; [exact H2|]. split; [exact H3|].
  split; [rewrite (list_of_l2 _ _ _ _ _ P1), R1, Hq; reflexivity|].
  split; [rewrite (list_of_l2 _ _ _ _ _ P2), R2; reflexivity|].
  split.
  { unfold array_of. rewrite R3, (np_log10_positive xs Hpos). reflexivity. }
  split; [rewrite !length_map; reflexivity|].
  intros Hsame. apply map_ext_in. intros x Hx.
  rewrite Forall_forall in Hpos. specialize (Hpos x Hx).
  unfold log10_numpy, log10_math, is_finite.
  rewrite (positive_not_nan x Hpos). cbn [orb].
  destruct (is_infinity x) eqn:Hinf; cbn [negb]; [reflexivity|].
  apply Hsame. unfold is_finite.
  rewrite (positive_not_nan x Hpos), Hinf. reflexivity.
Qed.

(** ** Cells in kernels that are not prepared *)

Lemma timed_ret (body : M unit) (s s2 : state) (sp : loc) :
  body (started s) = Ret tt s2 ->
  env s2 t1 = Some (VFloat (wall_clock (ticks s))) ->
  env s2 speed = Some (VList sp) ->
  timed body s = Ret tt (stopped (wall_clock (ticks s)) sp s2).
Proof.
  intros Hb H1 Hsp. rewrite timed_run, Hb. apply stop_clock_run; assumption.
Qed.

Lemma timed_exc (body : M unit) (s s2 : state) (e : exn) :
  body (started s) = Exc e s2 -> timed body s = Exc e s2.
Proof. intros H. rewrite timed_run, H. reflexivity. Qed.


Lemma lookup_list_bound (x : var) (s : state) (p : loc) :
  env s x = Some (VList p) -> lookup_list x s = Ret p s.
Proof. intros H. unfold lookup_list, bind, lookup. rewrite H. reflexivity. Qed.



Lemma run_until_stops (good rest : list float) (x : float) :
  Forall strictly_positive good ->
  non_positive x ->
  run_until (fun y => lg10 (VFloat y)) (good ++ x :: rest)
  = (map log10_math good, Some ValueError).
Proof.
  intros Hgood Hx. induction Hgood as [|g good Hg _ IH]; cbn.
  - rewrite (m_log10_non_positive x Hx). reflexivity.
  - rewrite (m_log10_positive g Hg).
    cbn in IH. rewrite IH. reflexivity.
Qed.

(** X2.  A failing for-loop keeps what it has appended.  When the Sample
    Set holds strictly positive numbers [good] and then a number that is
    zero or negative, the for-loop cell raises the domain error with the
    logarithms of [good] already appended to the list that [l2] names; the
    [map] cell raises the same error and leaves [l2] and its list as they
    were. *)
Theorem for_loop_keeps_partial_result
  (fuel : nat) (s : state) (p q sp : loc) (good rest : list float)
  (x : float) :
  prepared s p q sp (good ++ x :: rest) ->
  Forall strictly_positive good ->
  non_positive x ->
  (length (good ++ x :: rest) < fuel)%nat ->
  (exists s',
     strategy_for fuel s = Exc ValueError s' /\
     env s' l2 = Some (VList q) /\
     list_of l2 s' = Some (heap s q ++ map log10_math good)) /\
  (exists s',
     strategy_map s = Exc ValueError s' /\
     env s' l2 = Some (VList q) /\
     list_of l2 s' = Some (heap s q)).
Proof.
  intros Hpre Hgood Hx Hfuel. split.
  - pose proof (loop_append_run fuel s p q sp _ Hpre Hfuel) as Hrun.
    rewrite (run_until_stops good rest x Hgood Hx) in Hrun.
    eexists. split; [apply timed_exc; exact Hrun|].
    unfold list_of. rewrite appended_env. cbn.
    rewrite (pre_l2 _ _ _ _ _ Hpre), appended_here. split; reflexivity.
  - assert (Hin : In x (good ++ x :: rest))
      by (apply in_or_app; right; left; reflexivity).
    pose proof (logs_of_non_positive _ x Hin Hx) as Hys.
    rewrite (strategy_map_raises s p q sp _ _ Hpre Hys).
    eexists. split; [reflexivity|].
    unfold list_of. cbn. rewrite (pre_l2 _ _ _ _ _ Hpre).
    split; reflexivity.
Qed.



Lemma cell_a1_run (s : state) (p : loc) :
  env s l1 = Some (VList p) ->
  cell_a1 s = Ret tt (set_var a1 (VArray (heap s p)) s).
Proof.
  intros H. unfold cell_a1.
  rewrite (bind_ret _ _ _ _ _ (lookup_list_bound l1 s p H)). reflexivity.
Qed.

Lemma strategy_numpy_run (s : state) (zs : list float) (sp : loc) :
  env s a1 = Some (VArray zs) ->
  env s speed = Some (VList sp) ->
  strategy_numpy s =
  Ret tt (stopped (wall_clock (ticks s)) sp
            (set_var a2 (VArray (np_log10 zs)) (started s))).
Proof.
  intros Ha1 Hsp. apply timed_ret.
  - apply vectorized_run. exact Ha1.
  - reflexivity.
  - exact Hsp.
Qed.

Lemma strategy_map_run (s : state) (p sp : loc) (ys : list float) :
  env s l1 = Some (VList p) ->
  env s speed = Some (VList sp) ->
  mapM (fun x => lg10 (VFloat x)) (heap s p) = Ok ys ->
  strategy_map s =
  Ret tt (stopped (wall_clock (ticks s)) sp
            (set_var l2 (VList (next s))
               (mkState (env (started s)) (store (next s) ys (heap s))
                        (S (next s)) (S (ticks s)) (draws s)))).
Proof.
  intros Hl1 Hsp Hys. apply timed_ret.
  - rewrite (map_op1_run (started s) p (heap s p) Hl1 eq_refl), Hys.
    reflexivity.
  - reflexivity.
  - exact Hsp.
Qed.

(** X4.  The array is a copy made when [a1 = np.array(l1)] ran.  When the
    cell that draws the Sample Set is run again, [l1] names a new list of
    fresh draws and [a1] still holds the old numbers: the NumPy strategy
    then takes the logarithms of the old Sample Set and [map] those of the
    new one.  Running [a1 = np.array(l1)] again brings the two back in
    line. *)
Theorem redrawn_sample_leaves_array_stale
  (s : state) (p q sp : loc) (xs : list float) (n : Z) :
  prepared s p q sp xs ->
  env s N = Some (VInt n) ->
  0 <= n ->
  exists s1,
    cell_l1 s = Ret tt s1 /\
    list_of l1 s1 = Some (drawn (draws s) n) /\
    array_of a1 s1 = Some xs /\
    (exists s2,
       strategy_numpy s1 = Ret tt s2 /\
       array_of a2 s2 = Some (np_log10 xs)) /\
    (forall ys,
       mapM (fun x => lg10 (VFloat x)) (drawn (draws s) n) = Ok ys ->
       exists s2,
         strategy_map s1 = Ret tt s2 /\ list_of l2 s2 = Some ys) /\
    (exists s2,
       cell_a1 s1 = Ret tt s2 /\
       prepared s2 (next s) q sp (drawn (draws s) n)).
Proof.
  intros Hpre HN Hn.
  destruct Hpre as [Hl1 Hl2 Hsp Ha1 Hsample Hpq Hpsp Hqsp Hpl Hql Hspl].
  pose proof (cell_l1_run s n HN Hn) as Hrun.
  set (new := drawn (draws s) n) in *. clearbody new.
  set (s1 := set_var l1 (VList (next s)) _) in Hrun.
  assert (E1 : env s1 l1 = Some (VList (next s))) by reflexivity.
  assert (Ea : env s1 a1 = Some (VArray xs)) by exact Ha1.
  assert (Es : env s1 speed = Some (VList sp)) by exact Hsp.
  assert (Eh : heap s1 (next s) = new) by (cbn; apply store_same).
  exists s1. split; [exact Hrun|]. split; [|split; [|split; [|split]]].
  - unfold list_of. rewrite E1, Eh. reflexivity.
  - unfold array_of. rewrite Ea. reflexivity.
  - eexists. split; [apply (strategy_numpy_run s1 xs sp Ea Es)|].
    reflexivity.
  - intros ys Hys. rewrite <- Eh in Hys.
    eexists. split; [apply (strategy_map_run s1 _ sp ys E1 Es Hys)|].
    unfold list_of. cbn.
    rewrite store_other by lia. rewrite store_same. reflexivity.
  - eexists. split; [apply (cell_a1_run s1 _ E1)|].
    rewrite Eh. constructor; cbn; try assumption; try reflexivity; lia.
Qed.


(** ** Running the whole notebook in any kernel *)

Lemma in_range_finite (x : float) : in_range x -> is_finite x = true.
Proof.
  intros [H1 H101]. pose proof (at_least_one_positive x H1) as Hpos.
  unfold is_finite. rewrite (positive_not_nan x Hpos). cbn [orb].
  apply negb_true_iff. unfold is_infinity.
  apply not_true_is_false. rewrite eqb_spec, abs_spec.
  rewrite leb_spec, Prim2SF_one in H1. rewrite ltb_spec, Prim2SF_101 in H101.
  change (Prim2SF infinity) with (S754_infinity false).
  destruct (Prim2SF x) as [b|b| |b m e].
  - discriminate.
  - destruct b; [cbv in H1; discriminate H1|cbv in H101; discriminate H101].
  - cbv in H1. discriminate H1.
  - discriminate.
Qed.

Lemma logs_in_range (xs : list float) :
  Forall in_range xs ->
  map log10_math xs = map libm_log10 xs /\
  map log10_numpy xs = map npy_log10 xs.
Proof.
  intros H. rewrite Forall_forall in H.
  split; apply map_ext_in; intros x Hx; pose proof (in_range_finite x (H x Hx)) as F.
  - unfold log10_math. rewrite F. reflexivity.
  - unfold log10_numpy. unfold is_finite in F.
    apply negb_true_iff, orb_false_iff in F as [_ ->]. reflexivity.
Qed.

Lemma set_up_run (s : state) :
  exists s0,
    set_up s = Ret tt s0 /\
    prepared s0 (S (next s)) (S (S (next s))) (next s)
             (drawn (draws s) 1000000) /\
    heap s0 (next s) = [] /\
    heap s0 (S (S (next s))) = [] /\
    ticks s0 = ticks s /\
    draws s0 = (draws s + Z.to_nat 1000000)%nat.
Proof.
  pose proof (cell_globals_run s) as Hg.
  set (s1 := set_var speed (VList (next s)) _) in Hg.
  assert (HN : env s1 N = Some (VInt 1000000)) by reflexivity.
  pose proof (cell_l1_run s1 1000000 HN ltac:(lia)) as Hl1.
  change (draws s1) with (draws s) in Hl1.
  change (next s1) with (S (next s)) in Hl1.
  set (xs := drawn (draws s) 1000000) in *. clearbody xs.
  eexists. split.
  - unfold set_up.
    rewrite (bind_ret _ _ _ _ _ Hg), (bind_ret _ _ _ _ _ Hl1). reflexivity.
  - split; [|split; [|split; [|split]]].
    + constructor; cbn; try reflexivity; try lia.
      * rewrite store_same. reflexivity.
      * rewrite store_other by lia. apply store_same.
    + cbn. rewrite !store_other by lia. apply store_same.
    + cbn. apply store_same.
    + reflexivity.
    + reflexivity.
Qed.

Lemma notebook_run (fuel : nat) (s : state) :
  (forall k, unit_interval (uniform k)) ->
  1000000 < Z.of_nat fuel ->
  exists s',
    notebook fuel s = Ret tt s' /\
    list_of l1 s' = Some (drawn (draws s) 1000000) /\
    array_of a1 s' = Some (drawn (draws s) 1000000) /\
    list_of l2 s' = Some (map libm_log10 (drawn (draws s) 1000000)) /\
    array_of a2 s' = Some (map npy_log10 (drawn (draws s) 1000000)) /\
    list_of l3 s' = Some (map npy_log10 (drawn (draws s) 1000000)) /\
    list_of speed s' =
      Some [elapsed_after (ticks s) 0; elapsed_after (ticks s) 1;
            elapsed_after (ticks s) 2; elapsed_after (ticks s) 3] /\
    ticks s' = (ticks s + 8)%nat /\
    draws s' = (draws s + Z.to_nat 1000000)%nat.
Proof.
  intros Hu Hfuel.
  destruct (set_up_run s) as (s0 & H0 & P0 & D0 & _ & T0 & R0).
  pose proof (drawn_in_range (draws s) 1000000 Hu) as Hrange.
  pose proof (drawn_length (draws s) 1000000 ltac:(lia)) as Hlength.
  set (xs := drawn (draws s) 1000000) in *. clearbody xs.
  assert (Hpos : Forall strictly_positive xs).
  { eapply Forall_impl; [|exact Hrange]. apply in_range_positive. }
  pose proof (logs_of_positive _ Hpos) as Hys.
  pose proof (np_log10_positive _ Hpos) as Hzs.
  destruct (logs_in_range xs Hrange) as [Lm Ln]. rewrite Lm in Hys.
  rewrite Ln in Hzs.
  assert (Hlen : (length xs < fuel)%nat) by lia.
  destruct (strategy_for_ok fuel s0 _ _ _ _ _ P0 Hys Hlen)
    as (s1 & H1 & [P1 D1 T1 R1 _] & _).
  destruct (strategy_comprehension_ok s1 _ _ _ _ P1)
    as (s2 & H2 & [P2 D2 T2 R2 _] & _).
  destruct (strategy_map_ok s2 _ _ _ _ _ P2 Hys)
    as (s3 & H3 & [P3 D3 T3 R3 _] & L3).
  destruct (strategy_numpy_ok s3 _ _ _ _ P3)
    as (s4 & H4 & [P4 D4 T4 R4 _] & A4 & L4).
  pose proof (cell_l3_run s4 _ A4) as H5.
  set (s' := set_var l3 (VList (next s4)) _) in H5.
  assert (E0 : duration s0 = elapsed_after (ticks s) 0).
  { unfold duration, elapsed_after. rewrite T0. repeat f_equal; lia. }
  assert (E1 : duration s1 = elapsed_after (ticks s) 1).
  { unfold duration, elapsed_after. rewrite T1, T0. repeat f_equal; lia. }
  assert (E2 : duration s2 = elapsed_after (ticks s) 2).
  { unfold duration, elapsed_after. rewrite T2, T1, T0.
    repeat f_equal; lia. }
  assert (E3 : duration s3 = elapsed_after (ticks s) 3).
  { unfold duration, elapsed_after. rewrite T3, T2, T1, T0.
    repeat f_equal; lia. }
  rewrite D0, E0 in D1. rewrite D1, E1 in D2. rewrite D2, E2 in D3.
  rewrite D3, E3 in D4. cbn [app] in D1, D2, D3, D4.
  pose proof (pre_p_live _ _ _ _ _ P4) as Lp.
  pose proof (pre_q_live _ _ _ _ _ P4) as Lq.
  pose proof (pre_sp_live _ _ _ _ _ P4) as Lsp.
  exists s'. split.
  { unfold notebook.
    rewrite (bind_ret _ _ _ _ _ H0), (bind_ret _ _ _ _ _ H1),
      (bind_ret _ _ _ _ _ H2), (bind_ret _ _ _ _ _ H3),
      (bind_ret _ _ _ _ _ H4).
    exact H5. }
  unfold list_of, array_of. subst s'. cbn [env set_var var_eqb heap ticks draws].
  rewrite (pre_l1 _ _ _ _ _ P4), (pre_a1 _ _ _ _ _ P4),
    (pre_l2 _ _ _ _ _ P4), (pre_speed _ _ _ _ _ P4), A4.
  rewrite !store_other by lia. rewrite store_same.
  rewrite !store_other by lia.
  rewrite (pre_sample _ _ _ _ _ P4), L4, L3, D4, Hzs.
  split; [reflexivity|]. split; [reflexivity|]. split; [reflexivity|].
  split; [reflexivity|]. split; [reflexivity|]. split; [reflexivity|].
  split; lia.
Qed.

(** X6.  Running every cell from top to bottom, in a kernel in any state
    (fresh or used), with the generator drawing from [0, 1) and enough
    steps for the loop: the run finishes, no logarithm fails, and it
    leaves [l1] and [a1] holding the 1,000,000 numbers just drawn, [l2]
    the C library's logarithm of each of them (the result of [map], which
    replaced that of the comprehension), and [a2] and [l3] NumPy's
    logarithm of each of them. *)
Theorem run_all_takes_logs_of_fresh_sample (fuel : nat) (s : state) :
  (forall k, unit_interval (uniform k)) ->
  1000000 < Z.of_nat fuel ->
  exists s',
    notebook fuel s = Ret tt s' /\
    list_of l1 s' = Some (drawn (draws s) 1000000) /\
    array_of a1 s' = Some (drawn (draws s) 1000000) /\
    list_of l2 s' = Some (map libm_log10 (drawn (draws s) 1000000)) /\
    array_of a2 s' = Some (map npy_log10 (drawn (draws s) 1000000)) /\
    list_of l3 s' = Some (map npy_log10 (drawn (draws s) 1000000)) /\
    Z.of_nat (length (drawn (draws s) 1000000)) = 1000000 /\
    draws s' = (draws s + Z.to_nat 1000000)%nat.
Proof.
  intros Hu Hfuel.
  destruct (notebook_run fuel s Hu Hfuel)
    as (s' & Hrun & E1 & E2 & E3 & E4 & E5 & _ & _ & Hd).
  exists s'. repeat (split; [assumption|]).
  split; [apply drawn_length; lia|exact Hd].
Qed.

(** X7.  Running every cell from top to bottom starts [speed] afresh:
    whatever [speed] held before, and whether or not it was bound, it ends
    with exactly four durations, those of the four timed cells of this
    run in order, and the clock has been read eight times. *)
Theorem run_all_starts_speed_afresh (fuel : nat) (s : state) :
  (forall k, unit_interval (uniform k)) ->
  1000000 < Z.of_nat fuel ->
  exists s',
    notebook fuel s = Ret tt s' /\
    list_of speed s' =
      Some [elapsed_after (ticks s) 0; elapsed_after (ticks s) 1;
            elapsed_after (ticks s) 2; elapsed_after (ticks s) 3] /\
    ticks s' = (ticks s + 8)%nat.
Proof.
  intros Hu Hfuel.
  destruct (notebook_run fuel s Hu Hfuel)
    as (s' & Hrun & _ & _ & _ & _ & _ & Hsp & Ht & _).
  exists s'. split; [exact Hrun|]. split; [exact Hsp|]. exact Ht.
Qed.

(** ** What the cells show of the lists *)

Lemma first_few_run (x : var) (s : state) (p : loc) :
  env s x = Some (VList p) ->
  first_few x s = Ret (firstn 4 (heap s p)) s.
Proof.
  intros H. unfold first_few.
  rewrite (bind_ret _ _ _ _ _ (lookup_list_bound x s p H)). reflexivity.
Qed.

Lemma range_cons (a b : Z) : a < b -> range a b = a :: range (a + 1) b.
Proof.
  intros H. unfold range.
  replace (Z.to_nat (b - a)) with (S (Z.to_nat (b - (a + 1)))) by lia.
  cbn [seq map]. f_equal; [lia|].
  rewrite <- seq_shift, map_map. apply map_ext. intros k. lia.
Qed.

Lemma log10_table_first_few :
  firstn 4 log10_table = map libm_log10 [1; 2; 3; 4]%float.
Proof.
  unfold log10_table.
  rewrite (range_cons 1) by lia. rewrite (range_cons (1 + 1)) by lia.
  rewrite (range_cons (1 + 1 + 1)) by lia.
  rewrite (range_cons (1 + 1 + 1 + 1)) by lia.
  cbn [map firstn]. reflexivity.
Qed.

(** X8.  The first few elements that the cells print.  On a Sample Set
    of strictly positive numbers, with [l2] empty at the start, [l2[:4]]
    after the for-loop cell and after the [map] cell are the same list:
    the logarithms of [l1[:4]].  After the comprehension cell [l2[:4]] is
    [lg10] of 1, 2, 3 and 4, whatever the Sample Set.  [l3[:4]] is NumPy's
    logarithms of [l1[:4]]. *)
Theorem first_few_of_each_result
  (fuel : nat) (s : state) (p q sp : loc) (xs : list float) :
  prepared s p q sp xs ->
  heap s q = [] ->
  Forall strictly_positive xs ->
  (length xs < fuel)%nat ->
  exists s1 s2 s3 s4 s5,
    strategy_for fuel s = Ret tt s1 /\
    first_few l2 s1 = Ret (map log10_math (firstn 4 xs)) s1 /\
    strategy_comprehension s1 = Ret tt s2 /\
    first_few l2 s2 = Ret (map libm_log10 [1; 2; 3; 4]%float) s2 /\
    strategy_map s2 = Ret tt s3 /\
    first_few l2 s3 = Ret (map log10_math (firstn 4 xs)) s3 /\
    strategy_numpy s3 = Ret tt s4 /\
    cell_l3 s4 = Ret tt s5 /\
    first_few l3 s5 = Ret (map log10_numpy (firstn 4 xs)) s5 /\
    first_few l1 s5 = Ret (firstn 4 xs) s5.
Proof.
  intros Hpre Hq Hpos Hfuel.
  pose proof (logs_of_positive xs Hpos) as Hys.
  pose proof (np_log10_positive xs Hpos) as Hzs.
  destruct (strategy_for_ok fuel s _ _ _ _ _ Hpre Hys Hfuel)
    as (s1 & H1 & [P1 _ _ _ _] & L1).
  destruct (strategy_comprehension_ok s1 _ _ _ _ P1)
    as (s2 & H2 & [P2 _ _ _ _] & L2).
  destruct (strategy_map_ok s2 _ _ _ _ _ P2 Hys)
    as (s3 & H3 & [P3 _ _ _ _] & L3).
  destruct (strategy_numpy_ok s3 _ _ _ _ P3)
    as (s4 & H4 & [P4 _ _ _ _] & A4 & _).
  pose proof (cell_l3_run s4 _ A4) as H5.
  set (s5 := set_var l3 (VList (next s4)) _) in H5.
  pose proof (pre_p_live _ _ _ _ _ P4) as Lp.
  exists s1, s2, s3, s4, s5.
  split; [exact H1|]. split.
  { rewrite (first_few_run l2 s1 q (pre_l2 _ _ _ _ _ P1)), L1, Hq.
    cbn [app]. rewrite firstn_map. reflexivity. }
  split; [exact H2|]. split.
  { rewrite (first_few_run l2 s2 _ (pre_l2 _ _ _ _ _ P2)), L2.
    rewrite log10_table_first_few. reflexivity. }
  split; [exact H3|]. split.
  { rewrite (first_few_run l2 s3 _ (pre_l2 _ _ _ _ _ P3)), L3.
    rewrite firstn_map. reflexivity. }
  split; [exact H4|]. split; [exact H5|].
  assert (E1 : env s5 l1 = Some (VList p)) by exact (pre_l1 _ _ _ _ _ P4).
  assert (E3 : env s5 l3 = Some (VList (next s4))) by reflexivity.
  assert (Hp : heap s5 p = xs).
  { subst s5. cbn. rewrite store_other by lia.
    exact (pre_sample _ _ _ _ _ P4). }
  assert (H3' : heap s5 (next s4) = map log10_numpy xs).
  { subst s5. cbn. rewrite store_same. exact Hzs. }
  split.
  { rewrite (first_few_run l3 s5 _ E3), H3', firstn_map. reflexivity. }
  rewrite (first_few_run l1 s5 p E1), Hp. reflexivity.
Qed.

(** ** The list of durations and the chart *)



(** X10.  The chart shows each strategy under its own label.  When the
    four timed cells run in the order of the notebook from a prepared
    kernel in which [speed] is empty, the last cell draws four bars at the
    positions 1 to 4: the duration of the for-loop cell labelled
    For-loop, that of the comprehension labelled List comprehension, that
    of [map] labelled Map function and that of NumPy labelled NumPy. *)
Theorem chart_shows_each_strategy_under_its_label
  (fuel : nat) (s : state) (p q sp : loc) (xs : list float) :
  prepared s p q sp xs ->
  heap s sp = [] ->
  Forall strictly_positive xs ->
  (length xs < fuel)%nat ->
  exists s1 s2 s3 s4,
    strategy_for fuel s = Ret tt s1 /\
    strategy_comprehension s1 = Ret tt s2 /\
    strategy_map s2 = Ret tt s3 /\
    strategy_numpy s3 = Ret tt s4 /\
    cell_plot s4 =
      Some [mkBar 1 (duration s) For_loop;
            mkBar 2 (duration s1) List_comprehension;
            mkBar 3 (duration s2) Map_function;
            mkBar 4 (duration s3) NumPy].
Proof.
  intros Hpre Hsp Hpos Hfuel.
  pose proof (logs_of_positive xs Hpos) as Hys.
  destruct (strategy_for_ok fuel s _ _ _ _ _ Hpre Hys Hfuel)
    as (s1 & H1 & [P1 D1 _ _ _] & _).
  destruct (strategy_comprehension_ok s1 _ _ _ _ P1)
    as (s2 & H2 & [P2 D2 _ _ _] & _).
  destruct (strategy_map_ok s2 _ _ _ _ _ P2 Hys)
    as (s3 & H3 & [P3 D3 _ _ _] & _).
  destruct (strategy_numpy_ok s3 _ _ _ _ P3)
    as (s4 & H4 & [P4 D4 _ _ _] & _).
  exists s1, s2, s3, s4.
  split; [exact H1|]. split; [exact H2|]. split; [exact H3|].
  split; [exact H4|].
  unfold cell_plot. rewrite (list_of_speed _ _ _ _ _ P4).
  rewrite D4, D3, D2, D1, Hsp. reflexivity.
Qed.

End Notebook.

(** ** Worked examples *)

Lemma for_loop_appends_to_existing_list_witness :
  exists s',
    strategy_for ex_log10 ex_long_log10 ex_clock 3
      (kernel_with [4%float; 100%float] [7%float] []) = Ret tt s' /\
    env s' l2 = Some (VList 2%nat) /\
    list_of l2 s' =
      Some ([7%float] ++ [0x1.34413509f79ffp-1%float; 2%float]) /\
    (list_of l2 s' = Some [0x1.34413509f79ffp-1%float; 2%float] <->
     [7%float] = []).
Proof.
  apply (for_loop_appends_to_existing_list ex_log10 ex_long_log10 ex_clock
           3 (kernel_with [4%float; 100%float] [7%float] []) 1 2 0
           [4%float; 100%float] [7%float]
           [0x1.34413509f79ffp-1%float; 2%float]).
  - apply kernel_with_prepared.
  - reflexivity.
  - reflexivity.
  - cbn. lia.
Defined.

Lemma comprehension_ignores_sample_set_witness :
  exists s' s0',
    strategy_comprehension ex_log10 ex_long_log10 ex_clock
      (kernel_with [4%float; 100%float] [] []) = Ret tt s' /\
    strategy_comprehension ex_log10 ex_long_log10 ex_clock
      (kernel_with [] [7%float] []) = Ret tt s0' /\
    list_of l2 s' = Some (log10_table ex_log10) /\
    list_of l2 s0' = Some (log10_table ex_log10) /\
    Z.of_nat (length (log10_table ex_log10)) = 1000000 /\
    forall i, 1 <= i <= 1000000 ->
      exists y, lg10 ex_log10 ex_long_log10 (VInt i) = Ok y /\
                nth_error (log10_table ex_log10) (Z.to_nat (i - 1)) = Some y.
Proof.
  apply (comprehension_ignores_sample_set ex_log10 ex_long_log10 ex_clock
           (kernel_with [4%float; 100%float] [] []) 1 2 0 [4%float; 100%float]
           (kernel_with [] [7%float] []) 1 2 0 []).
  - apply kernel_with_prepared.
  - apply kernel_with_prepared.
Defined.

Lemma non_positive_element_raises_except_in_numpy_witness :
  (exists s',
     strategy_for ex_log10 ex_long_log10 ex_clock 4
       (kernel_with [4%float; 0%float; (-5)%float] [] []) = Exc ValueError s' /\
     list_of speed s' = Some []) /\
  (exists s',
     strategy_map ex_log10 ex_long_log10 ex_clock
       (kernel_with [4%float; 0%float; (-5)%float] [] []) = Exc ValueError s' /\
     list_of speed s' = Some []) /\
  (exists s',
     strategy_numpy ex_log10 ex_clock
       (kernel_with [4%float; 0%float; (-5)%float] [] []) = Ret tt s' /\
     array_of a2 s' = Some [0x1.34413509f79ffp-1%float; neg_infinity; nan] /\
     In neg_infinity [0x1.34413509f79ffp-1%float; neg_infinity; nan]).
Proof.
  apply (non_positive_element_raises_except_in_numpy
           ex_log10 ex_long_log10 ex_log10 ex_clock 4
           (kernel_with [4%float; 0%float; (-5)%float] [] []) 1 2 0
           [4%float; 0%float; (-5)%float] 0%float).
  - apply kernel_with_prepared.
  - right. left. reflexivity.
  - reflexivity.
  - cbn. lia.
Defined.

(** The NumPy strategy on the Sample Set [0.0, -5.0]: no exception, a
    Result Set of -inf and NaN, and a duration in [speed]. *)
Lemma numpy_on_non_positive_counterexample :
  non_positive 0 /\ non_positive (-5) /\
  exists s',
    strategy_numpy ex_log10 ex_clock
      (kernel_with [0%float; (-5)%float] [] []) = Ret tt s' /\
    array_of a2 s' = Some [neg_infinity; nan] /\
    list_of speed s' = Some [1%float].
Proof.
  split; [reflexivity|]. split; [reflexivity|].
  eexists. split; [reflexivity|]. split; reflexivity.
Qed.

Lemma rerun_repeats_result_unless_appending_witness :
  exists s1 s2,
    strategy_for ex_log10 ex_long_log10 ex_clock 3
      (kernel_with [4%float; 100%float] [7%float] []) = Ret tt s1 /\
    strategy_for ex_log10 ex_long_log10 ex_clock 3 s1 = Ret tt s2 /\
    list_of l2 s1 =
      Some ([7%float] ++ [0x1.34413509f79ffp-1%float; 2%float]) /\
    list_of l2 s2 =
      Some (([7%float] ++ [0x1.34413509f79ffp-1%float; 2%float])
              ++ [0x1.34413509f79ffp-1%float; 2%float]) /\
    list_of l1 s2 = Some [4%float; 100%float].
Proof.
  apply (rerun_repeats_result_unless_appending
           ex_log10 ex_long_log10 ex_log10 ex_clock 3
           (kernel_with [4%float; 100%float] [7%float] []) 1 2 0
           [4%float; 100%float]).
  - apply kernel_with_prepared.
  - repeat constructor.
  - cbn. lia.
Defined.

(** The for-loop strategy run twice on the Sample Set [4.0], with [l2]
    empty at the start: one element after the first run, two after the
    second. *)
Lemma for_loop_twice_counterexample :
  strictly_positive 4 /\
  exists s1 s2,
    strategy_for ex_log10 ex_long_log10 ex_clock 2
      (kernel_with [4%float] [] []) = Ret tt s1 /\
    strategy_for ex_log10 ex_long_log10 ex_clock 2 s1 = Ret tt s2 /\
    list_of l1 s1 = Some [4%float] /\
    list_of l1 s2 = Some [4%float] /\
    list_of l2 s1 = Some [0x1.34413509f79ffp-1%float] /\
    list_of l2 s2 =
      Some [0x1.34413509f79ffp-1%float; 0x1.34413509f79ffp-1%float].
Proof.
  split; [reflexivity|].
  pose proof (kernel_with_prepared [4%float] [] []) as Hpre.
  assert (Hys : mapM (fun x => lg10 ex_log10 ex_long_log10 (VFloat x))
                  [4%float] = Ok [0x1.34413509f79ffp-1%float])
    by reflexivity.
  destruct (strategy_for_ok ex_log10 ex_long_log10 ex_clock 2 _ _ _ _ _ _
              Hpre Hys) as (s1 & H1 & [P1 _ _ _ _] & R1); [cbn; lia|].
  destruct (strategy_for_ok ex_log10 ex_long_log10 ex_clock 2 _ _ _ _ _ _
              P1 Hys) as (s2 & H2 & [P2 _ _ _ _] & R2); [cbn; lia|].
  exists s1, s2. split; [exact H1|]. split; [exact H2|].
  split; [exact (list_of_l1 _ _ _ _ _ P1)|].
  split; [exact (list_of_l1 _ _ _ _ _ P2)|].
  rewrite (list_of_l2 _ _ _ _ _ P1), (list_of_l2 _ _ _ _ _ P2), R2, R1.
  split; reflexivity.
Qed.

Lemma sample_set_is_only_read_witness :
  ensures (strategy_for ex_log10 ex_long_log10 ex_clock 4
             (kernel_with [4%float; 0%float; 100%float] [] []))
          (sample_intact 1 [4%float; 0%float; 100%float]) /\
  ensures (strategy_comprehension ex_log10 ex_long_log10 ex_clock
             (kernel_with [4%float; 0%float; 100%float] [] []))
          (sample_intact 1 [4%float; 0%float; 100%float]) /\
  ensures (strategy_map ex_log10 ex_long_log10 ex_clock
             (kernel_with [4%float; 0%float; 100%float] [] []))
          (sample_intact 1 [4%float; 0%float; 100%float]) /\
  ensures (strategy_numpy ex_log10 ex_clock
             (kernel_with [4%float; 0%float; 100%float] [] []))
          (sample_intact 1 [4%float; 0%float; 100%float]) /\
  ((length [4%float; 0%float; 100%float] < 4)%nat ->
   strategy_for ex_log10 ex_long_log10 ex_clock 4
     (kernel_with [4%float; 0%float; 100%float] [] []) <> OutOfFuel) /\
  strategy_comprehension ex_log10 ex_long_log10 ex_clock
    (kernel_with [4%float; 0%float; 100%float] [] []) <> OutOfFuel /\
  strategy_map ex_log10 ex_long_log10 ex_clock
    (kernel_with [4%float; 0%float; 100%float] [] []) <> OutOfFuel /\
  strategy_numpy ex_log10 ex_clock
    (kernel_with [4%float; 0%float; 100%float] [] []) <> OutOfFuel.
Proof.
  apply (sample_set_is_only_read ex_log10 ex_long_log10 ex_log10 ex_clock 4
           (kernel_with [4%float; 0%float; 100%float] [] []) 1 2 0
           [4%float; 0%float; 100%float]).
  apply kernel_with_prepared.
Defined.

Lemma timing_frame_propagates_errors_witness :
  strategy_map ex_log10 ex_long_log10 ex_clock
    (kernel_with [4%float; 0%float] [] [3%float])
  = Exc ValueError
      (started ex_clock (kernel_with [4%float; 0%float] [] [3%float])) /\
  forall (fuel : nat) (p q sp : loc) (xs : list float),
    prepared (kernel_with [4%float; 0%float] [] [3%float]) p q sp xs ->
    map_op1 ex_log10 ex_long_log10 = loop_append ex_log10 ex_long_log10 fuel \/
    map_op1 ex_log10 ex_long_log10 = comprehension ex_log10 ex_long_log10 \/
    map_op1 ex_log10 ex_long_log10 = map_op1 ex_log10 ex_long_log10 \/
    map_op1 ex_log10 ex_long_log10 = vectorized ex_log10 ->
    list_of speed
      (started ex_clock (kernel_with [4%float; 0%float] [] [3%float]))
    = list_of speed (kernel_with [4%float; 0%float] [] [3%float]) /\
    ticks (started ex_clock (kernel_with [4%float; 0%float] [] [3%float]))
    = S (ticks (kernel_with [4%float; 0%float] [] [3%float])).
Proof.
  apply (timing_frame_propagates_errors
           ex_log10 ex_long_log10 ex_log10 ex_clock
           (map_op1 ex_log10 ex_long_log10)
           (kernel_with [4%float; 0%float] [] [3%float])
           (started ex_clock (kernel_with [4%float; 0%float] [] [3%float]))
           ValueError).
  reflexivity.
Defined.

Lemma ex_uniform_unit_interval (k : nat) : unit_interval (ex_uniform k).
Proof. split; reflexivity. Qed.

Lemma data_generator_draws_a_million_in_range_witness :
  exists s',
    (cell_globals ;; cell_l1 ex_uniform) fresh_kernel = Ret tt s' /\
    list_of l1 s' = Some (drawn ex_uniform (draws fresh_kernel) 1000000) /\
    Z.of_nat (length (drawn ex_uniform (draws fresh_kernel) 1000000))
    = 1000000 /\
    Forall in_range (drawn ex_uniform (draws fresh_kernel) 1000000) /\
    forall k : nat,
      Z.of_nat k < 1000000 ->
      nth_error (drawn ex_uniform (draws fresh_kernel) 1000000) k =
      Some (100 * ex_uniform (draws fresh_kernel + k) + 1)%float.
Proof.
  apply (data_generator_draws_a_million_in_range ex_uniform fresh_kernel).
  exact ex_uniform_unit_interval.
Defined.

Lemma ex_clock_in_order (j : nat) : (j < 4)%nat -> clock_in_order ex_clock j.
Proof.
  intros Hj.
  do 4 (destruct j as [|j]; [split; [reflexivity|split; reflexivity]|]).
  lia.
Qed.

Lemma notebook_records_four_durations_witness :
  exists s',
    notebook ex_log10 ex_long_log10 ex_log10 ex_clock ex_uniform
      (S (Z.to_nat 1000000)) fresh_kernel = Ret tt s' /\
    list_of speed s' =
      Some [elapsed ex_clock 0; elapsed ex_clock 1;
            elapsed ex_clock 2; elapsed ex_clock 3] /\
    Forall (fun d => (0 <=? d)%float = true)
           [elapsed ex_clock 0; elapsed ex_clock 1;
            elapsed ex_clock 2; elapsed ex_clock 3].
Proof.
  destruct (notebook_records_four_durations
              ex_log10 ex_long_log10 ex_log10 ex_clock ex_uniform
              (S (Z.to_nat 1000000)) ex_uniform_unit_interval ltac:(lia))
    as (s0 & s1 & s2 & s3 & s4 & s' & _ & _ & _ & _ & _ & _ & _ & _ & _ & _
        & _ & Hrun & Hspeed & Hnonneg).
  exists s'. split; [exact Hrun|]. split; [exact Hspeed|].
  apply Hnonneg. exact ex_clock_in_order.
Defined.

Lemma strategies_reading_the_sample_agree_witness :
  exists s1 s2 s3,
    strategy_for ex_log10 ex_long_log10 ex_clock 3
      (kernel_with [4%float; 100%float] [] []) = Ret tt s1 /\
    strategy_map ex_log10 ex_long_log10 ex_clock
      (kernel_with [4%float; 100%float] [] []) = Ret tt s2 /\
    strategy_numpy ex_log10 ex_clock
      (kernel_with [4%float; 100%float] [] []) = Ret tt s3 /\
    list_of l2 s1 = Some [0x1.34413509f79ffp-1%float; 2%float] /\
    list_of l2 s2 = Some [0x1.34413509f79ffp-1%float; 2%float] /\
    array_of a2 s3 = Some [0x1.34413509f79ffp-1%float; 2%float] /\
    length [0x1.34413509f79ffp-1%float; 2%float] =
    length [0x1.34413509f79ffp-1%float; 2%float] /\
    ((forall x, is_finite x = true -> ex_log10 x = ex_log10 x) ->
     [0x1.34413509f79ffp-1%float; 2%float] =
     [0x1.34413509f79ffp-1%float; 2%float]).
Proof.
  apply (strategies_reading_the_sample_agree
           ex_log10 ex_long_log10 ex_log10 ex_clock 3
           (kernel_with [4%float; 100%float] [] []) 1 2 0
           [4%float; 100%float]).
  - apply kernel_with_prepared.
  - reflexivity.
  - repeat constructor.
  - cbn. lia.
Defined.

Lemma for_loop_keeps_partial_result_witness :
  (exists s',
     strategy_for ex_log10 ex_long_log10 ex_clock 4
       (kernel_with [4%float; 0%float; 100%float] [7%float] [])
     = Exc ValueError s' /\
     env s' l2 = Some (VList 2%nat) /\
     list_of l2 s' = Some ([7%float] ++ [0x1.34413509f79ffp-1%float])) /\
  (exists s',
     strategy_map ex_log10 ex_long_log10 ex_clock
       (kernel_with [4%float; 0%float; 100%float] [7%float] [])
     = Exc ValueError s' /\
     env s' l2 = Some (VList 2%nat) /\
     list_of l2 s' = Some [7%float]).
Proof.
  apply (for_loop_keeps_partial_result ex_log10 ex_long_log10 ex_clock 4
           (kernel_with [4%float; 0%float; 100%float] [7%float] []) 1 2 0
           [4%float] [100%float] 0%float).
  - apply kernel_with_prepared.
  - repeat constructor.
  - reflexivity.
  - cbn. lia.
Defined.


Lemma redrawn_sample_leaves_array_stale_witness :
  exists s1,
    cell_l1 ex_uniform (kernel_with [4%float; 100%float] [] []) = Ret tt s1 /\
    list_of l1 s1 = Some [51%float; 51%float] /\
    array_of a1 s1 = Some [4%float; 100%float] /\
    (exists s2,
       strategy_numpy ex_log10 ex_clock s1 = Ret tt s2 /\
       array_of a2 s2 = Some [0x1.34413509f79ffp-1%float; 2%float]) /\
    (forall ys,
       mapM (fun x => lg10 ex_log10 ex_long_log10 (VFloat x))
            [51%float; 51%float] = Ok ys ->
       exists s2,
         strategy_map ex_log10 ex_long_log10 ex_clock s1 = Ret tt s2 /\
         list_of l2 s2 = Some ys) /\
    (exists s2,
       cell_a1 s1 = Ret tt s2 /\
       prepared s2 3 2 0 [51%float; 51%float]).
Proof.
  apply (redrawn_sample_leaves_array_stale
           ex_log10 ex_long_log10 ex_log10 ex_clock ex_uniform
           (kernel_with [4%float; 100%float] [] []) 1 2 0
           [4%float; 100%float] 2).
  - apply kernel_with_prepared.
  - reflexivity.
  - lia.
Defined.


Lemma first_few_of_each_result_witness :
  exists s1 s2 s3 s4 s5,
    strategy_for ex_log10 ex_long_log10 ex_clock 3
      (kernel_with [4%float; 100%float] [] []) = Ret tt s1 /\
    first_few l2 s1 = Ret [0x1.34413509f79ffp-1%float; 2%float] s1 /\
    strategy_comprehension ex_log10 ex_long_log10 ex_clock s1 = Ret tt s2 /\
    first_few l2 s2 =
      Ret [0%float; 2%float; 3%float; 0x1.34413509f79ffp-1%float] s2 /\
    strategy_map ex_log10 ex_long_log10 ex_clock s2 = Ret tt s3 /\
    first_few l2 s3 = Ret [0x1.34413509f79ffp-1%float; 2%float] s3 /\
    strategy_numpy ex_log10 ex_clock s3 = Ret tt s4 /\
    cell_l3 s4 = Ret tt s5 /\
    first_few l3 s5 = Ret [0x1.34413509f79ffp-1%float; 2%float] s5 /\
    first_few l1 s5 = Ret [4%float; 100%float] s5.
Proof.
  apply (first_few_of_each_result ex_log10 ex_long_log10 ex_log10 ex_clock
           3 (kernel_with [4%float; 100%float] [] []) 1 2 0
           [4%float; 100%float]).
  - apply kernel_with_prepared.
  - reflexivity.
  - repeat constructor.
  - cbn. lia.
Defined.

Lemma run_all_takes_logs_of_fresh_sample_witness :
  exists s',
    notebook ex_log10 ex_long_log10 ex_log10 ex_clock ex_uniform
      (S (Z.to_nat 1000000)) fresh_kernel = Ret tt s' /\
    list_of l1 s' = Some (drawn ex_uniform (draws fresh_kernel) 1000000) /\
    array_of a1 s' = Some (drawn ex_uniform (draws fresh_kernel) 1000000) /\
    list_of l2 s' =
      Some (map ex_log10 (drawn ex_uniform (draws fresh_kernel) 1000000)) /\
    array_of a2 s' =
      Some (map ex_log10 (drawn ex_uniform (draws fresh_kernel) 1000000)) /\
    list_of l3 s' =
      Some (map ex_log10 (drawn ex_uniform (draws fresh_kernel) 1000000)) /\
    Z.of_nat (length (drawn ex_uniform (draws fresh_kernel) 1000000))
    = 1000000 /\
    draws s' = (draws fresh_kernel + Z.to_nat 1000000)%nat.
Proof.
  apply (run_all_takes_logs_of_fresh_sample
           ex_log10 ex_long_log10 ex_log10 ex_clock ex_uniform
           (S (Z.to_nat 1000000)) fresh_kernel).
  - exact ex_uniform_unit_interval.
  - lia.
Defined.

Lemma run_all_starts_speed_afresh_witness :
  exists s',
    notebook ex_log10 ex_long_log10 ex_log10 ex_clock ex_uniform
      (S (Z.to_nat 1000000))
      (kernel_with [4%float] [] [9%float; 9%float; 9%float; 9%float; 9%float])
    = Ret tt s' /\
    list_of speed s' = Some [1%float; 1%float; 1%float; 1%float] /\
    ticks s' = 8%nat.
Proof.
  apply (run_all_starts_speed_afresh
           ex_log10 ex_long_log10 ex_log10 ex_clock ex_uniform
           (S (Z.to_nat 1000000))
           (kernel_with [4%float] []
              [9%float; 9%float; 9%float; 9%float; 9%float])).
  - exact ex_uniform_unit_interval.
  - lia.
Defined.


Lemma chart_shows_each_strategy_under_its_label_witness :
  exists s1 s2 s3 s4,
    strategy_for ex_log10 ex_long_log10 ex_clock 3
      (kernel_with [4%float; 100%float] [] []) = Ret tt s1 /\
    strategy_comprehension ex_log10 ex_long_log10 ex_clock s1 = Ret tt s2 /\
    strategy_map ex_log10 ex_long_log10 ex_clock s2 = Ret tt s3 /\
    strategy_numpy ex_log10 ex_clock s3 = Ret tt s4 /\
    cell_plot s4 =
      Some [mkBar 1 1%float For_loop;
            mkBar 2 (duration ex_clock s1) List_comprehension;
            mkBar 3 (duration ex_clock s2) Map_function;
            mkBar 4 (duration ex_clock s3) NumPy].
Proof.
  apply (chart_shows_each_strategy_under_its_label
           ex_log10 ex_long_log10 ex_log10 ex_clock 3
           (kernel_with [4%float; 100%float] [] []) 1 2 0
           [4%float; 100%float]).
  - apply kernel_with_prepared.
  - reflexivity.
  - repeat constructor.
  - cbn. lia.
Defined.
